(** * Passport spreadsheet to API JSON converter: loader and mapper

    A shallow embedding of [ExcelToJSONConverter] (src/app.py): the
    loader [load_excel_data] that scans the "Janitorial Services" sheet and
    the mapper [convert_to_api_json] that assembles the deal document.

    Python values are modelled by the inductive type [value], with one
    constructor for each type of value a cell of a workbook opened with
    [data_only=True] can hold; text is a [string] whose characters stand for
    the code points 0..255; integers are [Z]; floats are IEEE 754 binary64
    numbers, modelled exactly by [spec_float] with precision 53 and maximal
    exponent 1024; dates, times of day and durations are records of their
    integer fields; a [dict] keyed by field names is a [gmap string value];
    an exception is an explicit [Raise] result. *)

From Stdlib Require Import ZArith String Ascii List Bool Lia DecimalString.
From Stdlib Require Import Floats.SpecFloat.
From stdpp Require Import gmap strings.

Open Scope string_scope.
Open Scope Z_scope.

(** ** Text: the builtin [str] operations the converter uses *)

Module PyStr.

Definition code (c : ascii) : Z := Z.of_N (N_of_ascii c).

(** [str.isspace] on one character, for code points below 256. *)
Definition isspace (c : ascii) : bool :=
  let n := code c in
  ((9 <=? n) && (n <=? 13)) || ((28 <=? n) && (n <=? 32))
  || (n =? 133) || (n =? 160).

Fixpoint lstrip (s : string) : string :=
  match s with
  | EmptyString => EmptyString
  | String c s' => if isspace c then lstrip s' else s
  end.

Fixpoint rstrip (s : string) : string :=
  match s with
  | EmptyString => EmptyString
  | String c s' =>
      match rstrip s' with
      | EmptyString => if isspace c then EmptyString else String c EmptyString
      | r => String c r
      end
  end.

(** [s.strip()] *)
Definition strip (s : string) : string := rstrip (lstrip s).

Definition is_empty (s : string) : bool :=
  match s with EmptyString => true | _ => false end.

Fixpoint all_space (s : string) : bool :=
  match s with
  | EmptyString => true
  | String c s' => isspace c && all_space s'
  end.

Definition head_space (s : string) : bool :=
  match s with String c _ => isspace c | EmptyString => false end.

Fixpoint last_space (s : string) : bool :=
  match s with
  | EmptyString => false
  | String c EmptyString => isspace c
  | String _ s' => last_space s'
  end.

Definition is_digit (c : ascii) : bool := (48 <=? code c) && (code c <=? 57).

Definition digit_val (c : ascii) : Z := code c - 48.

(** Value of a run of decimal digits, most significant first. *)
Definition digits_val (l : list ascii) : Z :=
  fold_left (fun acc c => 10 * acc + digit_val c) l 0.

(** Longest prefix of decimal digits and what follows it. *)
Fixpoint span_digits (l : list ascii) : list ascii * list ascii :=
  match l with
  | c :: l' =>
      if is_digit c then let (d, r) := span_digits l' in (c :: d, r)
      else ([], l)
  | [] => ([], [])
  end.

(** Underscores in numeric literals, as [int] and [float] accept them:
    an underscore must follow a digit and precede a digit. The result is
    the text without them, or [None] when one is misplaced. *)
Fixpoint drop_underscores (prev : ascii) (l : list ascii) : option (list ascii) :=
  match l with
  | [] => if Ascii.eqb prev "_" then None else Some []
  | c :: l' =>
      if Ascii.eqb c "_" then
        if is_digit prev then drop_underscores c l' else None
      else if Ascii.eqb prev "_" && negb (is_digit c) then None
      else option_map (cons c) (drop_underscores c l')
  end.

Definition take_sign (l : list ascii) : bool * list ascii :=
  match l with
  | c :: l' =>
      if Ascii.eqb c "-" then (true, l')
      else if Ascii.eqb c "+" then (false, l')
      else (false, l)
  | [] => (false, [])
  end.

(** Decimal text of an integer: [str(n)] for an [int]. *)
Definition of_Z (z : Z) : string := NilZero.string_of_int (Z.to_int z).

Fixpoint repeat0 (n : nat) : string :=
  match n with O => EmptyString | S k => String "0" (repeat0 k) end.

(** [z] in decimal, padded on the left with zeros to at least [w]
    characters ([z] is not negative). *)
Definition zfill (w : nat) (z : Z) : string :=
  let s := of_Z z in
  repeat0 (w - String.length s)%nat +:+ s.

End PyStr.

(** ** Floats: IEEE 754 binary64, with [float(text)] and [repr(float)] *)

Module PyFloat.
Import PyStr.

Definition prec : Z := 53.
Definition emax : Z := 1024.

Abbreviation float := spec_float.

(** [float(n)] for an [int]: the nearest double, ties to even; an integer
    too large for a double gives an infinity here, which the callers turn
    into [OverflowError]. *)
Definition of_Z (z : Z) : float := binary_normalize prec emax z 0 false.

(** [x / y] on floats with a divisor that is not zero. *)
Definition div (x y : float) : float := SFdiv prec emax x y.

Definition ltb (x y : float) : bool := SFltb x y.

Definition is_zero (f : float) : bool :=
  match f with S754_zero _ => true | _ => false end.

Definition is_finite (f : float) : bool :=
  match f with S754_zero _ | S754_finite _ _ _ => true | _ => false end.

(** The same double (one NaN only; the two zeros differ). *)
Definition identical (x y : float) : bool :=
  match x, y with
  | S754_zero a, S754_zero b => Bool.eqb a b
  | S754_infinity a, S754_infinity b => Bool.eqb a b
  | S754_nan, S754_nan => true
  | S754_finite a m e, S754_finite b n f =>
      Bool.eqb a b && (m =? n)%positive && (e =? f)
  | _, _ => false
  end.

(** The double nearest to [(-1)^neg * m * 10^e], ties to even ([0 <= m]):
    the value of a decimal literal. *)
Definition of_decimal (neg : bool) (m e : Z) : float :=
  match m with
  | Z0 => S754_zero neg
  | Zpos p =>
      if 0 <=? e then
        binary_normalize prec emax (if neg then - (Zpos p * 10 ^ e) else Zpos p * 10 ^ e) 0 false
      else
        let '(q, e', l) := SFdiv_core_binary prec emax (Zpos p) 0 (10 ^ (- e)) 0 in
        binary_round_aux prec emax neg q e' l
  | Zneg _ => S754_nan
  end.

(** *** [float(text)] *)

(** Blanks that [float] skips at both ends of its argument. *)
Definition float_space (c : ascii) : bool :=
  let n := code c in
  ((9 <=? n) && (n <=? 13)) || (n =? 32) || (n =? 133) || (n =? 160).

Fixpoint skip_space (l : list ascii) : list ascii :=
  match l with
  | c :: l' => if float_space c then skip_space l' else l
  | [] => []
  end.

Definition trim (l : list ascii) : list ascii :=
  rev (skip_space (rev (skip_space l))).

Definition lower (c : ascii) : ascii :=
  if (65 <=? code c) && (code c <=? 90)
  then ascii_of_N (N_of_ascii c + 32) else c.

Definition parse_inf_nan (neg : bool) (l : list ascii) : option float :=
  let w := string_of_list_ascii (map lower l) in
  if String.eqb w "inf" || String.eqb w "infinity" then Some (S754_infinity neg)
  else if String.eqb w "nan" then Some S754_nan
  else None.

Definition is_e (c : ascii) : bool := Ascii.eqb c "e" || Ascii.eqb c "E".

(** [digits [. digits] [e [sign] digits]] with a digit before the
    exponent, and nothing left over. *)
Definition parse_number (neg : bool) (l : list ascii) : option float :=
  let (ip, r1) := span_digits l in
  let (fp, r2) :=
    match r1 with
    | c :: r => if Ascii.eqb c "." then span_digits r else ([], r1)
    | [] => ([], [])
    end in
  match (ip ++ fp)%list with
  | [] => None
  | ds =>
      let shift := Z.of_nat (length fp) in
      match r2 with
      | [] => Some (of_decimal neg (digits_val ds) (- shift))
      | c :: r3 =>
          if is_e c then
            let (eneg, r4) := take_sign r3 in
            let (ed, r5) := span_digits r4 in
            match ed, r5 with
            | _ :: _, [] =>
                let ev := digits_val ed in
                Some (of_decimal neg (digits_val ds)
                        ((if eneg then - ev else ev) - shift))
            | _, _ => None
            end
          else None
      end
  end.

(** [float(s)]: [None] stands for [ValueError]. *)
Definition of_string (s : string) : option float :=
  match drop_underscores "000" (trim (list_ascii_of_string s)) with
  | None => None
  | Some l =>
      let (neg, body) := take_sign l in
      match parse_inf_nan neg body with
      | Some f => Some f
      | None => parse_number neg body
      end
  end.

(** *** [repr(float)]: the shortest decimal text that reads back as the
    same double *)

Definition num (m : positive) (e : Z) : Z :=
  if 0 <=? e then Zpos m * 2 ^ e else Zpos m.

Definition den (e : Z) : Z := if 0 <=? e then 1 else 2 ^ (- e).

(** [n / d < 10 ^ k] *)
Definition below_pow10 (n d k : Z) : bool :=
  if 0 <=? k then n <? d * 10 ^ k else n * 10 ^ (- k) <? d.

Fixpoint find_decpt (fuel : nat) (n d k : Z) : Z :=
  match fuel with
  | O => k
  | S f => if below_pow10 n d k then k else find_decpt f n d (k + 1)
  end.

(** The [k] with [10^(k-1) <= n/d < 10^k], for a positive double. *)
Definition decpt (n d : Z) : Z := find_decpt 640 n d (-330).

(** [n/d] scaled to [nd] digits before the point: quotient, remainder
    and divisor of [(n/d) / 10^(k-nd)]. *)
Definition scale (n d k nd : Z) : Z * Z * Z :=
  let s := nd - k in
  let n' := if 0 <=? s then n * 10 ^ s else n in
  let d' := if 0 <=? s then d else d * 10 ^ (- s) in
  (n' / d', n' mod d', d').

Definition reads_back (m : positive) (e : Z) (c k : Z) : bool :=
  identical (of_decimal false c k) (S754_finite false m e).

(** Try 1, 2, ... digits: the first length at which a neighbour of the
    value reads back as the same double wins; of two such neighbours the
    nearer one, the even one on a tie. Seventeen digits always suffice. *)
Fixpoint shortest (fuel : nat) (nd : Z) (m : positive) (e k : Z) : Z * Z :=
  let '(q, r, d') := scale (num m e) (den e) k nd in
  let lo_ok := reads_back m e q (k - nd) in
  let hi_ok := negb (r =? 0) && reads_back m e (q + 1) (k - nd) in
  let nearest :=
    match 2 * r ?= d' with
    | Lt => q
    | Gt => q + 1
    | Eq => if Z.even q then q else q + 1
    end in
  match fuel with
  | O => (if lo_ok && hi_ok then nearest else if lo_ok then q
          else if hi_ok then q + 1 else nearest, nd)
  | S f =>
      if lo_ok && hi_ok then (nearest, nd)
      else if lo_ok then (q, nd)
      else if hi_ok then (q + 1, nd)
      else shortest f (nd + 1) m e k
  end.

Fixpoint drop_zeros (l : list ascii) : list ascii :=
  match l with
  | c :: l' => if Ascii.eqb c "0" then drop_zeros l' else l
  | [] => []
  end.

Definition strip_trailing_zeros (s : string) : string :=
  string_of_list_ascii (rev (drop_zeros (rev (list_ascii_of_string s)))).

(** Digits [ds] with the decimal point after the first [dp] of them, in
    the layout of [repr]: exponent form when [dp <= -4] or [16 < dp]. *)
Definition layout (ds : string) (dp : Z) : string :=
  let n := Z.of_nat (String.length ds) in
  if (dp <=? -4) || (16 <? dp) then
    let x := dp - 1 in
    let mant :=
      match ds with
      | String c EmptyString => ds
      | String c r => String c ("." +:+ r)
      | EmptyString => EmptyString
      end in
    mant +:+ "e" +:+ (if x <? 0 then "-" else "+") +:+ zfill 2 (Z.abs x)
  else if dp <=? 0 then "0." +:+ repeat0 (Z.to_nat (- dp)) +:+ ds
  else if n <=? dp then ds +:+ repeat0 (Z.to_nat (dp - n)) +:+ ".0"
  else substring 0 (Z.to_nat dp) ds +:+ "." +:+
       substring (Z.to_nat dp) (Z.to_nat (n - dp)) ds.

(** [repr(f)], which is also [str(f)]. *)
Definition repr (f : float) : string :=
  match f with
  | S754_nan => "nan"
  | S754_infinity s => if s then "-inf" else "inf"
  | S754_zero s => if s then "-0.0" else "0.0"
  | S754_finite s m e =>
      let k := decpt (num m e) (den e) in
      let (c, nd) := shortest 16 1 m e k in
      let ds := PyStr.of_Z c in
      let dp := k + (Z.of_nat (String.length ds) - nd) in
      (if s then "-" else "") +:+ layout (strip_trailing_zeros ds) dp
  end.

(** [int(f)] on a finite double: truncation towards zero. *)
Definition trunc (f : float) : option Z :=
  match f with
  | S754_zero _ => Some 0
  | S754_finite s m e =>
      let a := if 0 <=? e then Zpos m * 2 ^ e else Zpos m / 2 ^ (- e) in
      Some (if s then - a else a)
  | _ => None
  end.

End PyFloat.

(** ** Python values *)

(** A naive [datetime.datetime], as a date-formatted cell holds. *)
Record datetime := {
  dt_year : Z; dt_month : Z; dt_day : Z;
  dt_hour : Z; dt_minute : Z; dt_second : Z; dt_microsecond : Z
}.

(** A [datetime.date], as a cell typed as an ISO 8601 date holds. *)
Record date := {
  d_year : Z; d_month : Z; d_day : Z
}.

(** A naive [datetime.time], as a cell with a time-of-day format holds. *)
Record time := {
  tm_hour : Z; tm_minute : Z; tm_second : Z; tm_microsecond : Z
}.

(** A [datetime.timedelta], as a cell with a duration format holds: the
    normalized days, seconds (0 to 86399) and microseconds (0 to 999999). *)
Record timedelta := {
  td_days : Z; td_seconds : Z; td_microseconds : Z
}.

(** What a worksheet cell can hold, and hence what a record field can:
    nothing, a text, an integer, a float, a boolean, a date with or
    without a time, a time of day or a duration. *)
Inductive value :=
| VNone
| VStr (s : string)
| VInt (z : Z)
| VFloat (f : PyFloat.float)
| VBool (b : bool)
| VDatetime (d : datetime)
| VTime (t : time)
| VTimedelta (d : timedelta)
| VDate (d : date).

Inductive exn :=
| KeyError | TypeError | ValueError | OverflowError | ZeroDivisionError.

Inductive result (A : Type) :=
| Ok (a : A)
| Raise (e : exn).
Arguments Ok {A} a.
Arguments Raise {A} e.

#[global] Instance result_bind : MBind result := fun A B k r =>
  match r with Ok a => k a | Raise e => Raise e end.

#[global] Instance result_ret : MRet result := fun A a => Ok a.

Module Py.

(** [bool(v)] *)
Definition truthy (v : value) : bool :=
  match v with
  | VNone => false
  | VStr s => negb (PyStr.is_empty s)
  | VInt z => negb (z =? 0)
  | VFloat f => negb (PyFloat.is_zero f)
  | VBool b => b
  | VDatetime _ => true
  | VTime _ => true
  | VTimedelta d =>
      negb ((td_days d =? 0) && (td_seconds d =? 0) && (td_microseconds d =? 0))
  | VDate _ => true
  end.

(** [isinstance(v, str)] *)
Definition is_str (v : value) : bool :=
  match v with VStr _ => true | _ => false end.

Definition str_datetime (d : datetime) : string :=
  PyStr.zfill 4 (dt_year d) +:+ "-" +:+ PyStr.zfill 2 (dt_month d) +:+ "-" +:+
  PyStr.zfill 2 (dt_day d) +:+ " " +:+ PyStr.zfill 2 (dt_hour d) +:+ ":" +:+
  PyStr.zfill 2 (dt_minute d) +:+ ":" +:+ PyStr.zfill 2 (dt_second d) +:+
  (if dt_microsecond d =? 0 then "" else "." +:+ PyStr.zfill 6 (dt_microsecond d)).

Definition str_date (d : date) : string :=
  PyStr.zfill 4 (d_year d) +:+ "-" +:+ PyStr.zfill 2 (d_month d) +:+ "-" +:+
  PyStr.zfill 2 (d_day d).

Definition str_time (t : time) : string :=
  PyStr.zfill 2 (tm_hour t) +:+ ":" +:+ PyStr.zfill 2 (tm_minute t) +:+ ":" +:+
  PyStr.zfill 2 (tm_second t) +:+
  (if tm_microsecond t =? 0 then "" else "." +:+ PyStr.zfill 6 (tm_microsecond t)).

Definition str_timedelta (d : timedelta) : string :=
  let mm := td_seconds d / 60 in
  let ss := td_seconds d mod 60 in
  let hh := mm / 60 in
  let mm := mm mod 60 in
  let s := PyStr.of_Z hh +:+ ":" +:+ PyStr.zfill 2 mm +:+ ":" +:+ PyStr.zfill 2 ss in
  let s :=
    if td_days d =? 0 then s
    else PyStr.of_Z (td_days d) +:+ " day" +:+
         (if Z.abs (td_days d) =? 1 then "" else "s") +:+ ", " +:+ s in
  if td_microseconds d =? 0 then s
  else s +:+ "." +:+ PyStr.zfill 6 (td_microseconds d).

(** [str(v)], which is also how an f-string renders [v]. *)
Definition str (v : value) : string :=
  match v with
  | VNone => "None"
  | VStr s => s
  | VInt z => PyStr.of_Z z
  | VFloat f => PyFloat.repr f
  | VBool b => if b then "True" else "False"
  | VDatetime d => str_datetime d
  | VTime t => str_time t
  | VTimedelta d => str_timedelta d
  | VDate d => str_date d
  end.

(** The integer a double is equal to, when it is equal to one. *)
Definition float_integer (f : PyFloat.float) : option Z :=
  match f with
  | S754_zero _ => Some 0
  | S754_finite s m e =>
      if 0 <=? e then Some (if s then - (Zpos m * 2 ^ e) else Zpos m * 2 ^ e)
      else if Zpos m mod 2 ^ (- e) =? 0
           then Some (if s then - (Zpos m / 2 ^ (- e)) else Zpos m / 2 ^ (- e))
           else None
  | _ => None
  end.

Definition datetime_eqb (a b : datetime) : bool :=
  (dt_year a =? dt_year b) && (dt_month a =? dt_month b) &&
  (dt_day a =? dt_day b) && (dt_hour a =? dt_hour b) &&
  (dt_minute a =? dt_minute b) && (dt_second a =? dt_second b) &&
  (dt_microsecond a =? dt_microsecond b).

Definition date_eqb (a b : date) : bool :=
  (d_year a =? d_year b) && (d_month a =? d_month b) && (d_day a =? d_day b).

Definition time_eqb (a b : time) : bool :=
  (tm_hour a =? tm_hour b) && (tm_minute a =? tm_minute b) &&
  (tm_second a =? tm_second b) && (tm_microsecond a =? tm_microsecond b).

Definition timedelta_eqb (a b : timedelta) : bool :=
  (td_days a =? td_days b) && (td_seconds a =? td_seconds b) &&
  (td_microseconds a =? td_microseconds b).

Definition int_of_bool (b : bool) : Z := if b then 1 else 0.

(** [a == b]: numbers compare by value across [int], [bool] and
    [float]; values of unrelated types are never equal. *)
Definition eq (a b : value) : bool :=
  match a, b with
  | VNone, VNone => true
  | VStr s, VStr t => String.eqb s t
  | VDatetime c, VDatetime d => datetime_eqb c d
  | VTime t, VTime u => time_eqb t u
  | VTimedelta c, VTimedelta d => timedelta_eqb c d
  | VDate c, VDate d => date_eqb c d
  | VInt x, VInt y => x =? y
  | VInt x, VBool y | VBool y, VInt x => x =? int_of_bool y
  | VBool x, VBool y => Bool.eqb x y
  | VFloat f, VFloat g => SFeqb f g
  | VFloat f, VInt x | VInt x, VFloat f =>
      match float_integer f with Some y => x =? y | None => false end
  | VFloat f, VBool x | VBool x, VFloat f =>
      match float_integer f with Some y => int_of_bool x =? y | None => false end
  | _, _ => false
  end.

(** [int(text)] in base ten, without the interpreter's limit on the
    number of digits. *)
Definition int_of_string (s : string) : result Z :=
  match PyStr.drop_underscores "000" (PyFloat.trim (list_ascii_of_string s)) with
  | None => Raise ValueError
  | Some l =>
      let (neg, body) := PyStr.take_sign l in
      match PyStr.span_digits body with
      | ((_ :: _) as ds, []) =>
          Ok (if neg then - PyStr.digits_val ds else PyStr.digits_val ds)
      | _ => Raise ValueError
      end
  end.

(** [int(v)] *)
Definition int (v : value) : result Z :=
  match v with
  | VInt z => Ok z
  | VBool b => Ok (int_of_bool b)
  | VFloat f =>
      match f with
      | S754_nan => Raise ValueError
      | S754_infinity _ => Raise OverflowError
      | _ => match PyFloat.trunc f with Some z => Ok z | None => Raise ValueError end
      end
  | VStr s => int_of_string s
  | VNone | VDatetime _ | VTime _ | VTimedelta _ | VDate _ => Raise TypeError
  end.

(** [float(n)] as the division operator applies it to an [int]. *)
Definition float_of_int (z : Z) : result PyFloat.float :=
  let f := PyFloat.of_Z z in
  if PyFloat.is_finite f then Ok f else Raise OverflowError.

(** [f.as_integer_ratio()]: the fraction in lowest terms equal to [f]. *)
Definition as_integer_ratio (f : PyFloat.float) : result (Z * Z) :=
  match f with
  | S754_nan => Raise ValueError
  | S754_infinity _ => Raise OverflowError
  | S754_zero _ => Ok (0, 1)
  | S754_finite s m e =>
      let n := if 0 <=? e then Zpos m * 2 ^ e else Zpos m in
      let d := if 0 <=? e then 1 else 2 ^ (- e) in
      let g := Z.gcd n d in
      Ok ((if s then - (n / g) else n / g), d / g)
  end.

(** The quotient of [a] by [b] rounded to the nearest integer, a tie to
    the even one. *)
Definition divide_nearest (a b : Z) : Z :=
  let q := a / b in
  let r := a mod b in
  if (Z.abs b <? 2 * Z.abs r) || ((Z.abs b =? 2 * Z.abs r) && Z.odd q)
  then q + 1 else q.

Definition timedelta_microseconds (d : timedelta) : Z :=
  (td_days d * 86400 + td_seconds d) * 1000000 + td_microseconds d.

(** The duration of that many microseconds; its days are bounded. *)
Definition microseconds_to_delta (us : Z) : result timedelta :=
  let s := us / 1000000 in
  let d := s / 86400 in
  if (-999999999 <=? d) && (d <=? 999999999)
  then Ok {| td_days := d; td_seconds := s mod 86400;
             td_microseconds := us mod 1000000 |}
  else Raise OverflowError.

(** [d / b] for a duration [d] and a float [b]. *)
Definition timedelta_truediv (d : timedelta) (b : PyFloat.float) : result timedelta :=
  ratio ← as_integer_ratio b;
  if fst ratio =? 0 then Raise ZeroDivisionError
  else microseconds_to_delta
         (divide_nearest (timedelta_microseconds d * snd ratio) (fst ratio)).

(** [a / b] for a float [b]. *)
Definition truediv (a : value) (b : PyFloat.float) : result value :=
  match a with
  | VFloat x =>
      if PyFloat.is_zero b then Raise ZeroDivisionError
      else Ok (VFloat (PyFloat.div x b))
  | VInt z =>
      x ← float_of_int z;
      if PyFloat.is_zero b then Raise ZeroDivisionError
      else Ok (VFloat (PyFloat.div x b))
  | VBool c =>
      x ← float_of_int (int_of_bool c);
      if PyFloat.is_zero b then Raise ZeroDivisionError
      else Ok (VFloat (PyFloat.div x b))
  | VTimedelta d => q ← timedelta_truediv d b; Ok (VTimedelta q)
  | VNone | VStr _ | VDatetime _ | VTime _ | VDate _ => Raise TypeError
  end.

(** [d[k]] and [d.get(k, default)] on a dict with text keys. *)
Definition getitem (d : gmap string value) (k : string) : result value :=
  match d !! k with Some v => Ok v | None => Raise KeyError end.

Definition get (d : gmap string value) (k : string) (dflt : value) : value :=
  match d !! k with Some v => v | None => dflt end.

End Py.


(** ** The workbook *)

(** The workbook is taken as [load_workbook] returns it, with the cached
    values of formulas; a file that cannot be read is not modelled. *)

(** A worksheet: the value of every cell, by column letters and row
    number (an empty cell holds [VNone]), and the last row in use. *)
Record worksheet := {
  cell_value : string -> Z -> value;
  max_row : Z
}.

(** A workbook: its sheets by name, in order. *)
Definition workbook := list (string * worksheet).

Definition sheetnames (wb : workbook) : list string := map fst wb.

Fixpoint get_sheet (wb : workbook) (name : string) : option worksheet :=
  match wb with
  | [] => None
  | (n, ws) :: wb' => if String.eqb n name then Some ws else get_sheet wb' name
  end.

(** ** The converter object *)

Record converter := {
  buildings_data : list (gmap string value);
  customer_info : gmap string value
}.

(** [ExcelToJSONConverter()] *)
Definition new_converter : converter :=
  {| buildings_data := []; customer_info := ∅ |}.

(** ** The loader: [load_excel_data] *)

Definition column_map : list (string * string) :=
  [ ("customer", "B"); ("building_id", "C"); ("address", "D"); ("city", "E");
    ("state", "F"); ("zip", "G"); ("building_type", "I");
    ("total_sq_ft", "J"); ("cleanable_sq_ft", "K");
    ("alternate_productivity", "M");
    ("sun", "R"); ("mon", "S"); ("tue", "T"); ("wed", "U");
    ("thu", "V"); ("fri", "W"); ("sat", "X");
    ("additional_costs", "AB");
    ("equipment_rental_1", "AH"); ("contract_terms_1", "AI");
    ("equipment_rental_2", "AJ"); ("contract_terms_2", "AK");
    ("wage_adjustment", "AO");
    ("dp_sun", "AQ"); ("dp_mon", "AR"); ("dp_tue", "AS"); ("dp_wed", "AT");
    ("dp_thu", "AU"); ("dp_fri", "AV"); ("dp_sat", "AW");
    ("sup_sun", "AZ"); ("sup_mon", "BA"); ("sup_tue", "BB"); ("sup_wed", "BC");
    ("sup_thu", "BD"); ("sup_fri", "BE"); ("sup_sat", "BF") ]%list.

(** The fields whose empty cell becomes the empty text. *)
Definition string_fields : list string :=
  [ "customer"; "building_id"; "address"; "city"; "state"; "building_type" ]%list.

Definition numeric_fields : list string :=
  [ "cleanable_sq_ft"; "total_sq_ft"; "zip"; "alternate_productivity";
    "sun"; "mon"; "tue"; "wed"; "thu"; "fri"; "sat";
    "additional_costs"; "wage_adjustment";
    "dp_sun"; "dp_mon"; "dp_tue"; "dp_wed"; "dp_thu"; "dp_fri"; "dp_sat";
    "sup_sun"; "sup_mon"; "sup_tue"; "sup_wed"; "sup_thu"; "sup_fri"; "sup_sat" ]%list.

Definition mem (x : string) (l : list string) : bool := existsb (String.eqb x) l.

(** Lines 106-115: the value stored for [field] from the cell value. *)
Definition clean_value (field : string) (v : value) : value :=
  match v with
  | VNone => if mem field string_fields then VStr "" else VInt 0
  | VStr s =>
      if String.eqb field "building_type" then VStr s
      else VStr (PyStr.strip s)
  | _ => v
  end.

(** Lines 98-115: the record of one row, field by field. *)
Definition extract_row (ws : worksheet) (row : Z) : gmap string value :=
  fold_left
    (fun bd '(field, col) => <[field := clean_value field (cell_value ws col row)]> bd)
    column_map ∅.

(** Lines 125-131: a numeric field that holds text becomes a number. *)
Definition coerce_field (bd : gmap string value) (field : string) : gmap string value :=
  match bd !! field with
  | Some v =>
      if Py.eq v (VStr "") then <[field := VInt 0]> bd
      else
        match v with
        | VStr s =>
            match PyFloat.of_string s with
            | Some f => <[field := VFloat f]> bd
            | None => <[field := VInt 0]> bd
            end
        | _ => bd
        end
  | None => bd
  end.

Definition coerce_numeric (bd : gmap string value) : gmap string value :=
  fold_left coerce_field numeric_fields bd.

(** Lines 98-131: the record built for a row that passed the guards. *)
Definition record_of (ws : worksheet) (r : Z) : gmap string value :=
  coerce_numeric (extract_row ws r).

(** The state of the scan: the loop variable [row], the records appended
    to [self.buildings_data] so far, and the local [customer_name]. *)
Record scan_state := {
  row : Z;
  scanned : list (gmap string value);
  customer_name : value
}.

Definition skip (st : scan_state) : scan_state :=
  {| row := row st + 1; scanned := scanned st; customer_name := customer_name st |}.

(** Lines 82, 88 and 94: the three guards that skip a row. *)
Definition no_customer (ws : worksheet) (r : Z) : bool :=
  negb (Py.truthy (cell_value ws "B" r)).

Definition no_building_id (ws : worksheet) (r : Z) : bool :=
  let v := cell_value ws "C" r in
  negb (Py.truthy v) || String.eqb (PyStr.strip (Py.str v)) "".

Definition no_cleanable_sq_ft (ws : worksheet) (r : Z) : bool :=
  let v := cell_value ws "K" r in
  negb (Py.truthy v) || Py.eq v (VInt 0).

(** Lines 80-138: one iteration of the [while] loop. *)
Definition loop_body (ws : worksheet) (st : scan_state) : result scan_state :=
  if no_customer ws (row st) then Ok (skip st)
  else if no_building_id ws (row st) then Ok (skip st)
  else if no_cleanable_sq_ft ws (row st) then Ok (skip st)
  else
    let building_data := record_of ws (row st) in
    name ← (match customer_name st with
            | VNone => Py.getitem building_data "customer"
            | n => Ok n
            end);
    Ok {| row := row st + 1;
          scanned := (scanned st ++ [building_data])%list;
          customer_name := name |}.

(** Line 79: [row <= ws.max_row and row <= 100]. *)
Definition loop_cond (ws : worksheet) (st : scan_state) : bool :=
  (row st <=? max_row ws) && (row st <=? 100).

(** The [while] loop, with a bound on the number of iterations: [None]
    when the bound is reached with the condition still true; otherwise the
    state at the exit, with the exception if the body raised one. *)
Fixpoint scan (fuel : nat) (ws : worksheet) (st : scan_state)
  : option (option exn * scan_state) :=
  if loop_cond ws st then
    match fuel with
    | O => None
    | S fuel' =>
        match loop_body ws st with
        | Ok st' => scan fuel' ws st'
        | Raise e => Some (Some e, st)
        end
    end
  else Some (None, st).

Definition scan_start : scan_state :=
  {| row := 4; scanned := []; customer_name := VNone |}.

(** [x or y] *)
Definition py_or (x y : value) : value := if Py.truthy x then x else y.

(** [load_excel_data]: the returned flag and the converter afterwards;
    [fuel] bounds the iterations of the scan. Every exception is caught
    (line 148) and turns into the flag [false]. *)
Definition load_excel_data_fuel (fuel : nat) (wb : workbook) (self : converter)
  : option (bool * converter) :=
  if negb (mem "Janitorial Services" (sheetnames wb)) then Some (false, self)
  else
    match get_sheet wb "Janitorial Services" with
    | None => Some (false, self)
    | Some ws =>
        match scan fuel ws scan_start with
        | None => None
        | Some (Some _, st) =>
            Some (false, {| buildings_data := scanned st;
                            customer_info := customer_info self |})
        | Some (None, st) =>
            Some (true,
                  {| buildings_data := scanned st;
                     customer_info :=
                       match scanned st with
                       | [] => customer_info self
                       | _ :: _ =>
                           {[ "customer_name" :=
                                py_or (customer_name st) (VStr "Unknown Customer") ]}
                       end |})
        end
    end.

(** Rows 4 to 100 are 97 rows: the scan needs no more iterations. *)
Definition load_excel_data := load_excel_data_fuel 97.


(** ** The API document *)

Record equipment_entry := {
  equipmentType : value;
  contractTerm : string
}.

Record week := {
  sunday : value; monday : value; tuesday : value; wednesday : value;
  thursday : value; friday : value; saturday : value
}.

Record cost_adjustments := {
  hourlyWageAdjustment : value;
  weeklyAdditionalCosts : value
}.

Record input_item := {
  itemName : string;
  itemValue : value
}.

Record service := {
  lineItemObjectId : string;
  serviceType : string;
  serviceFrequency : string;
  schedule : week;
  inputs : list input_item;
  (** [None] is the empty object, [Some v] is [{"value": v}] *)
  productivityOverride : option value;
  costAdjustments : cost_adjustments;
  equipment : list equipment_entry;
  dayporterHours : week;
  dayporterHourlyWageAdjustment : value;
  supervisorHours : week
}.

Record location_block := {
  loc_state : value;
  postalCode : string;
  loc_address : value;
  loc_city : value;
  country : string
}.

Record building_details := {
  totalSquareFootage : value;
  cleanableSquareFootage : value
}.

Record building := {
  buildingRecordId : string;
  buildingId : string;
  buildingName : string;
  facilityType : value;
  location : location_block;
  buildingDetails : building_details;
  services : list service
}.

Record deal := {
  dealRecordId : string;
  customerRecordId : string;
  buildings : list building
}.

(** ** The mapper: [convert_to_api_json] *)

(** Lines 167-170: the table of contract terms; its keys are texts and
    integers. *)
Definition contract_terms_map : list (value * string) :=
  [ (VStr "12", "12"); (VStr "24", "24"); (VStr "36", "36"); (VStr "60", "60");
    (VInt 12, "12"); (VInt 24, "24"); (VInt 36, "36"); (VInt 60, "60") ]%list.

(** [table.get(key, default)] on a dict whose keys are values: the entry
    whose key is equal to [key]. *)
Fixpoint table_get (table : list (value * string)) (key : value) (dflt : string) : string :=
  match table with
  | [] => dflt
  | (k, v) :: table' => if Py.eq k key then v else table_get table' key dflt
  end.

(** Lines 174-183: one equipment slot. *)
Definition equipment_slot (bd : gmap string value) (rental terms : string)
  : result (list equipment_entry) :=
  if Py.truthy (Py.get bd rental VNone) then
    ty ← Py.getitem bd rental;
    Ok [ {| equipmentType := ty;
            contractTerm := table_get contract_terms_map (Py.get bd terms (VStr "")) "" |} ]%list
  else Ok []%list.

Definition week_of (bd : gmap string value) (su mo tu we th fr sa : string) : week :=
  {| sunday := Py.get bd su (VInt 0); monday := Py.get bd mo (VInt 0);
     tuesday := Py.get bd tu (VInt 0); wednesday := Py.get bd we (VInt 0);
     thursday := Py.get bd th (VInt 0); friday := Py.get bd fr (VInt 0);
     saturday := Py.get bd sa (VInt 0) |}.

(** Line 216: [4.33], the double nearest to 433/100. *)
Definition weeks_per_month : PyFloat.float :=
  Eval vm_compute in PyFloat.of_decimal false 433 (-2).

(** Lines 215-217 *)
Definition weekly_additional_costs (bd : gmap string value) : result value :=
  let monthly_additional_costs := Py.get bd "additional_costs" (VInt 0) in
  if PyFloat.ltb (S754_zero false) weeks_per_month
  then Py.truediv monthly_additional_costs weeks_per_month
  else Ok (VInt 0).

(** Line 233 *)
Definition postal_code (zip : value) : result string :=
  if Py.truthy zip then z ← Py.int zip; Ok (PyStr.of_Z z) else Ok "".

(** Lines 166-270: the body of the [for] loop, for one record. *)
Definition map_building (customer_name : value) (bd : gmap string value)
  : result building :=
  eq1 ← equipment_slot bd "equipment_rental_1" "contract_terms_1";
  eq2 ← equipment_slot bd "equipment_rental_2" "contract_terms_2";
  let dayporter_hours :=
    week_of bd "dp_sun" "dp_mon" "dp_tue" "dp_wed" "dp_thu" "dp_fri" "dp_sat" in
  let supervisor_hours :=
    week_of bd "sup_sun" "sup_mon" "sup_tue" "sup_wed" "sup_thu" "sup_fri" "sup_sat" in
  productivity_override ←
    (if Py.truthy (Py.get bd "alternate_productivity" VNone)
     then v ← Py.getitem bd "alternate_productivity"; Ok (Some v)
     else Ok None);
  weekly ← weekly_additional_costs bd;
  let cost := {| hourlyWageAdjustment := VInt 0; weeklyAdditionalCosts := weekly |} in
  id1 ← Py.getitem bd "building_id";
  id2 ← Py.getitem bd "building_id";
  id3 ← Py.getitem bd "building_id";
  ftype ← Py.getitem bd "building_type";
  st ← Py.getitem bd "state";
  zip ← Py.getitem bd "zip";
  pc ← postal_code zip;
  addr ← Py.getitem bd "address";
  cty ← Py.getitem bd "city";
  sqft ← Py.getitem bd "cleanable_sq_ft";
  id4 ← Py.getitem bd "building_id";
  sqft' ← Py.getitem bd "cleanable_sq_ft";
  Ok {| buildingRecordId := "BLDG_" +:+ Py.str id1;
        buildingId := Py.str id2;
        buildingName := Py.str customer_name +:+ " - " +:+ Py.str id3;
        facilityType := ftype;
        location :=
          {| loc_state := st; postalCode := pc; loc_address := addr;
             loc_city := cty; country := "USA" |};
        buildingDetails :=
          {| totalSquareFootage := Py.get bd "total_sq_ft" (VInt 0);
             cleanableSquareFootage := sqft |};
        services :=
          [ {| lineItemObjectId := "LINE_" +:+ Py.str id4;
               serviceType := "RJS";
               serviceFrequency := "weekly";
               schedule := week_of bd "sun" "mon" "tue" "wed" "thu" "fri" "sat";
               inputs := [ {| itemName := "cleanableSquareFootage";
                              itemValue := sqft' |} ]%list;
               productivityOverride := productivity_override;
               costAdjustments := cost;
               equipment := (eq1 ++ eq2)%list;
               dayporterHours := dayporter_hours;
               dayporterHourlyWageAdjustment := Py.get bd "wage_adjustment" (VInt 0);
               supervisorHours := supervisor_hours |} ]%list |}.

(** Lines 163-272: the [for] loop; the buildings are appended in order. *)
Fixpoint map_buildings (customer_name : value) (rows : list (gmap string value))
  : result (list building) :=
  match rows with
  | [] => Ok []%list
  | bd :: rows' =>
      b ← map_building customer_name bd;
      bs ← map_buildings customer_name rows';
      Ok (b :: bs)
  end.

(** [convert_to_api_json]: [Ok None] is the returned [None]; [now] is
    [datetime.now()] in the format [%Y%m%d_%H%M%S]. *)
Definition convert_to_api_json (now : string) (self : converter) : result (option deal) :=
  match buildings_data self with
  | [] => Ok None
  | _ :: _ =>
      let customer_name :=
        Py.get (customer_info self) "customer_name" (VStr "Unknown Customer") in
      let deal_record_id := "DEAL_" +:+ Py.str customer_name +:+ "_" +:+ now in
      let customer_record_id := "CUST_" +:+ Py.str customer_name in
      bs ← map_buildings customer_name (buildings_data self);
      Ok (Some {| dealRecordId := deal_record_id;
                  customerRecordId := customer_record_id;
                  buildings := bs |})
  end.

(** ** Worksheets given by their filled cells *)

Definition cell_list := list (string * Z * value).

Fixpoint lookup_cell (cells : cell_list) (col : string) (r : Z) : value :=
  match cells with
  | [] => VNone
  | (c, r', v) :: cells' =>
      if String.eqb c col && (r' =? r) then v else lookup_cell cells' col r
  end.

(** The last row that has a cell, as [ws.max_row] reports it (1 for a
    sheet without cells). *)
Definition last_row (cells : cell_list) : Z :=
  fold_right (fun '(_, r, _) m => Z.max r m) 1 cells.

Definition sheet_of (cells : cell_list) : worksheet :=
  {| cell_value := lookup_cell cells; max_row := last_row cells |}.

Definition passport (cells : cell_list) : workbook :=
  [ ("Janitorial Services", sheet_of cells) ]%list.

(** ** What the loader keeps: the acceptance test and the stored record *)

(** The row passes the three guards of the scan. *)
Definition accepted (ws : worksheet) (r : Z) : bool :=
  negb (no_customer ws r) && negb (no_building_id ws r)
  && negb (no_cleanable_sq_ft ws r).

(** The rows the loop visits: 4 up to the lesser of [max_row] and 100. *)
Definition scan_rows (ws : worksheet) : list Z :=
  seqZ 4 (Z.min (max_row ws) 100 - 3).

(** What lines 125-131 make of the value of a numeric field. *)
Definition coerce_value (v : value) : value :=
  if Py.eq v (VStr "") then VInt 0
  else
    match v with
    | VStr s =>
        match PyFloat.of_string s with
        | Some f => VFloat f
        | None => VInt 0
        end
    | _ => v
    end.

(** A cell is empty when it holds nothing or the empty text. *)
Definition empty_cell (v : value) : bool :=
  match v with
  | VNone => true
  | VStr s => PyStr.is_empty s
  | _ => false
  end.

(** The acceptance test in the words of the specification: the customer
    cell is not empty, the building id is not empty after trimming, the
    cleanable square footage is present and not zero. *)
Definition spec_accepted (ws : worksheet) (r : Z) : bool :=
  negb (empty_cell (cell_value ws "B" r))
  && negb (empty_cell (cell_value ws "C" r))
  && negb (PyStr.is_empty (PyStr.strip (Py.str (cell_value ws "C" r))))
  && negb (empty_cell (cell_value ws "K" r))
  && negb (Py.eq (cell_value ws "K" r) (VInt 0)).

(** A number, as opposed to a text, a date, a time, a duration or
    nothing. *)
Definition is_number (v : value) : bool :=
  match v with
  | VInt _ | VFloat _ | VBool _ => true
  | _ => false
  end.

(** A date, with or without a time, a time of day or a duration. *)
Definition is_temporal (v : value) : bool :=
  match v with
  | VDatetime _ | VTime _ | VTimedelta _ | VDate _ => true
  | _ => false
  end.

(** The postal code of a record can be rendered (line 233). *)
Definition zip_ok (zip : value) : bool :=
  negb (Py.truthy zip) || match Py.int zip with Ok _ => true | Raise _ => false end.

(** The monthly costs of a record can be divided (line 217). *)
Definition costs_ok (v : value) : bool :=
  match v with
  | VInt z => PyFloat.is_finite (PyFloat.of_Z z)
  | VFloat _ | VBool _ => true
  | VTimedelta d =>
      match Py.timedelta_truediv d weeks_per_month with
      | Ok _ => true
      | Raise _ => false
      end
  | _ => false
  end.

Definition has_key (bd : gmap string value) (k : string) : bool :=
  match bd !! k with Some _ => true | None => false end.

(** The record has what the mapper needs to build a Building from it. *)
Definition mappable (bd : gmap string value) : bool :=
  forallb (has_key bd)
    [ "building_id"; "building_type"; "state"; "zip"; "address"; "city";
      "cleanable_sq_ft" ]%list
  && zip_ok (Py.get bd "zip" VNone)
  && costs_ok (Py.get bd "additional_costs" (VInt 0)).

(** The contract term of an equipment entry (lines 177 and 182). *)
Definition contract_term (v : value) : string :=
  table_get contract_terms_map v "".

(** The column a field is read from when the loop over the items of the
    map ends: the last entry with that field. *)
Definition last_column (l : list (string * string)) (g : string) : option string :=
  snd <$> find (fun p => String.eqb (fst p) g) (rev l).

(** The state after one iteration of the scan. *)
Definition next_state (ws : worksheet) (st : scan_state) : scan_state :=
  if accepted ws (row st) then
    {| row := row st + 1;
       scanned := (scanned st ++ [record_of ws (row st)])%list;
       customer_name :=
         match customer_name st with
         | VNone => clean_value "customer" (cell_value ws "B" (row st))
         | n => n
         end |}
  else skip st.

(** The two worksheets agree on every row the scan may visit. *)
Definition same_scanned_rows (ws ws' : worksheet) : Prop :=
  max_row ws' = max_row ws /\
  forall col r, 4 <= r <= max_row ws -> r <= 100 ->
                cell_value ws' col r = cell_value ws col r.

(** ** Sample sheets *)

(** Row 4 is the scenario of the specification; row 5 is a second building
    of the same customer; row 6 has no building id. *)
Definition acme_cells : cell_list :=
  [ ("B", 4, VStr "Acme"); ("C", 4, VStr "B1"); ("K", 4, VInt 5000);
    ("T", 4, VInt 2); ("AH", 4, VStr "Vacuum"); ("AI", 4, VInt 24);
    ("B", 5, VStr " Acme "); ("C", 5, VStr " B2 "); ("K", 5, VStr "1200");
    ("G", 5, VStr " 02134 "); ("I", 5, VStr " Office "); ("J", 5, VStr "abc");
    ("AB", 5, VInt 433); ("AO", 5, VInt 2);
    ("AH", 5, VStr "Scrubber"); ("AI", 5, VStr "36");
    ("AJ", 5, VStr "Buffer"); ("AK", 5, VInt 99);
    ("B", 6, VStr "Acme"); ("K", 6, VInt 700) ]%list.

(** The same sheet with rows beyond the hundredth. *)
Definition long_cells (name : string) : cell_list :=
  (acme_cells ++
   [ ("B", 150, VStr name); ("C", 150, VStr "B150"); ("K", 150, VInt 10) ])%list.

(** A building whose id is the number zero. *)
Definition zero_id_cells : cell_list :=
  [ ("B", 4, VStr "Acme"); ("C", 4, VInt 0); ("K", 4, VInt 5000) ]%list.

(** A building whose postal code cell holds the text [nan]. *)
Definition nan_zip_cells : cell_list :=
  [ ("B", 4, VStr "Acme"); ("C", 4, VStr "B1"); ("K", 4, VInt 5000);
    ("G", 4, VStr "nan") ]%list.

(** The records of the sample sheet, as the loader stores them. *)
Definition acme_loaded : converter :=
  {| buildings_data := [ record_of (sheet_of acme_cells) 4;
                         record_of (sheet_of acme_cells) 5 ];
     customer_info := {[ "customer_name" := VStr "Acme" ]} |}.

(** The document converted from the sample records. *)
Definition acme_deal : deal :=
  Eval vm_compute in
    match convert_to_api_json "20260101_000000" acme_loaded with
    | Ok (Some d) => d
    | _ => {| dealRecordId := ""; customerRecordId := ""; buildings := [] |}
    end.

(** ** Reading the claims *)

(** The entries of one equipment slot: one when the equipment type is
    truthy, none otherwise. *)
Definition slot_entries (bd : gmap string value) (rental terms : string)
  : list equipment_entry :=
  if Py.truthy (Py.get bd rental VNone)
  then [ {| equipmentType := Py.get bd rental VNone;
            contractTerm := contract_term (Py.get bd terms (VStr "")) |} ]
  else [].

(** What the loader stores in a numeric field for a cell value: nothing
    becomes 0, a text is trimmed and parsed as a float, or becomes 0 when it
    does not parse, anything else is kept. *)
Definition stored_numeric (v : value) : value :=
  match v with
  | VNone => VInt 0
  | VStr s =>
      match PyFloat.of_string (PyStr.strip s) with
      | Some x => VFloat x
      | None => VInt 0
      end
  | _ => v
  end.

(** An integer, a boolean or a finite float. *)
Definition finite_number (v : value) : bool :=
  match v with
  | VInt _ | VBool _ => true
  | VFloat f => PyFloat.is_finite f
  | _ => false
  end.

Definition term_numbers : list Z := [12; 24; 36; 60].

(** The records of the sheet whose postal code is [nan]. *)
Definition nan_zip_loaded : converter :=
  {| buildings_data := [ record_of (sheet_of nan_zip_cells) 4 ];
     customer_info := {[ "customer_name" := VStr "Acme" ]} |}.

(** A float, a boolean or an integer within the range of a double. *)
Definition divisible_number (v : value) : bool :=
  is_number v && costs_ok v.

(** The postal code and the monthly costs of a record are numbers the
    mapper can render and divide. *)
Definition finite_inputs (bd : gmap string value) : bool :=
  finite_number (Py.get bd "zip" VNone)
  && divisible_number (Py.get bd "additional_costs" (VInt 0)).

(** The cleanable square footage is a text, not empty, that the loader
    stores as zero: a blank text, a text that [float] rejects or a text
    that reads as zero. *)
Definition text_footage_zero (v : value) : bool :=
  Py.is_str v && Py.truthy v && negb (Py.truthy (stored_numeric v)).

(** The cleanable square footage is present and the footage stored from
    it is not zero. *)
Definition footage_given (v : value) : bool :=
  negb (empty_cell v) && Py.truthy (stored_numeric v).

(** ** The rest of [main]: the download name and the statistics *)

(** [s.replace(old, new)] for one-character [old] and [new]. *)
Fixpoint replace_char (old new : ascii) (s : string) : string :=
  match s with
  | EmptyString => EmptyString
  | String c s' =>
      String (if Ascii.eqb c old then new else c) (replace_char old new s')
  end.

(** Lines 374-375: the name of the downloaded file; [None] stands for the
    exception raised when the customer name is not a text. *)
Definition download_filename (self : converter) : option string :=
  match Py.get (customer_info self) "customer_name" (VStr "Unknown") with
  | VStr name =>
      let customer_safe := replace_char "/" "_" (replace_char " " "_" name) in
      Some (customer_safe +:+ "_api_input.json")
  | _ => None
  end.

(** Lines 440, 443 and 447: the three counts shown after a conversion. *)
Definition buildings_processed (d : deal) : nat := length (buildings d).

Definition services_count (d : deal) : nat :=
  list_sum (map (fun b => length (services b)) (buildings d)).

Definition equipment_count (d : deal) : nat :=
  list_sum
    (flat_map (fun b => map (fun svc => length (equipment svc)) (services b))
       (buildings d)).

(** ** Reading the code beyond the claims *)

(** What the loader stores in a text field for a cell value. *)
Definition stored_text (v : value) : value :=
  match v with
  | VNone => VStr ""
  | VStr s => VStr (PyStr.strip s)
  | _ => v
  end.

(** The customer of the first accepted row among [rows], as stored. *)
Definition first_customer (ws : worksheet) (rows : list Z) : value :=
  match List.filter (accepted ws) rows with
  | [] => VNone
  | r :: _ => stored_text (cell_value ws "B" r)
  end.

(** The exception of the division of line 217 for these monthly costs. *)
Definition costs_error (v : value) : option exn :=
  match v with
  | VFloat _ | VBool _ => None
  | VInt z => if PyFloat.is_finite (PyFloat.of_Z z) then None else Some OverflowError
  | VTimedelta d =>
      match Py.timedelta_truediv d weeks_per_month with
      | Ok _ => None
      | Raise e => Some e
      end
  | _ => Some TypeError
  end.

(** The exception of [str(int(zip))] of line 233 for a postal code that is
    not a text. *)
Definition zip_error (v : value) : option exn :=
  match v with
  | VFloat S754_nan => Some ValueError
  | VFloat (S754_infinity _) => Some OverflowError
  | VDatetime _ | VTime _ | VDate _ => Some TypeError
  | VTimedelta d => if Py.truthy (VTimedelta d) then Some TypeError else None
  | _ => None
  end.

(** The exception the loop body of the mapper ends with for a stored
    record: the division comes first, the postal code second. *)
Definition record_error (bd : gmap string value) : option exn :=
  match costs_error (Py.get bd "additional_costs" (VInt 0)) with
  | Some e => Some e
  | None => zip_error (Py.get bd "zip" VNone)
  end.

(** The first exception among the records, in order. *)
Fixpoint first_error (rows : list (gmap string value)) : option exn :=
  match rows with
  | [] => None
  | bd :: rows' =>
      match record_error bd with
      | Some e => Some e
      | None => first_error rows'
      end
  end.

Definition has_char (c : ascii) (s : string) : bool :=
  existsb (Ascii.eqb c) (list_ascii_of_string s).

(** The local [customer_name] after the scan of [rows], from its value
    before: it is set once, by the first accepted row. *)
Definition captured_customer (ws : worksheet) (before : value) (rows : list Z) : value :=
  match before with
  | VNone => first_customer ws rows
  | _ => before
  end.

(** What the loader stores in a field that is neither one of the six text
    fields nor numeric (the equipment and contract-term fields). *)
Definition stored_other (v : value) : value :=
  match v with
  | VNone => VInt 0
  | VStr s => VStr (PyStr.strip s)
  | _ => v
  end.

(** The record has the keys the mapper subscripts, and its postal code is
    not a text: what every stored record is like. *)
Definition complete_record (bd : gmap string value) : bool :=
  forallb (has_key bd)
    [ "building_id"; "building_type"; "state"; "zip"; "address"; "city";
      "cleanable_sq_ft" ]%list
  && negb (Py.is_str (Py.get bd "zip" VNone)).

(** The fields of a stored record. *)
Definition field_names : list string := map fst column_map.

(** What the loader stores in [building_type] for a cell value. *)
Definition stored_verbatim (v : value) : value :=
  match v with
  | VNone => VStr ""
  | _ => v
  end.

(** The equipment entries of one slot, from its two cells. *)
Definition cell_entries (rental terms : value) : list equipment_entry :=
  if Py.truthy (stored_other rental)
  then [ {| equipmentType := stored_other rental;
            contractTerm := contract_term (stored_other terms) |} ]
  else [].

(** The week read from seven cells of a row. *)
Definition week_of_cells (ws : worksheet) (r : Z) (su mo tu we th fr sa : string) : week :=
  {| sunday := stored_numeric (cell_value ws su r);
     monday := stored_numeric (cell_value ws mo r);
     tuesday := stored_numeric (cell_value ws tu r);
     wednesday := stored_numeric (cell_value ws we r);
     thursday := stored_numeric (cell_value ws th r);
     friday := stored_numeric (cell_value ws fr r);
     saturday := stored_numeric (cell_value ws sa r) |}.

(** A row whose cleanable square footage is the text [n/a]. *)
Definition text_footage_cells : cell_list :=
  [ ("B", 4, VStr "Acme"); ("C", 4, VStr "B1"); ("K", 4, VStr "n/a") ]%list.

(** A converter whose customer has blanks and a slash in its name. *)
Definition spaced_customer : converter :=
  {| buildings_data := [];
     customer_info := {[ "customer_name" := VStr "Acme Corp/East 2" ]} |}.

(** * Properties *)

(** ** Text *)

Lemma lstrip_head s : PyStr.head_space (PyStr.lstrip s) = false.
Proof.
  induction s as [|c s IH]; simpl; [reflexivity|].
  destruct (PyStr.isspace c) eqn:E; [exact IH | simpl; exact E].
Qed.

Lemma rstrip_last s : PyStr.last_space (PyStr.rstrip s) = false.
Proof.
  induction s as [|c s IH]; simpl; [reflexivity|].
  destruct (PyStr.rstrip s) as [|d r] eqn:E.
  - destruct (PyStr.isspace c) eqn:Ec; simpl; [reflexivity | exact Ec].
  - exact IH.
Qed.

Lemma rstrip_head s :
  PyStr.head_space s = false -> PyStr.head_space (PyStr.rstrip s) = false.
Proof.
  destruct s as [|c s]; simpl; [reflexivity|]. intros Hc.
  destruct (PyStr.rstrip s); [rewrite Hc|]; simpl; assumption.
Qed.

Lemma lstrip_split s :
  exists l, s = l +:+ PyStr.lstrip s /\ PyStr.all_space l = true.
Proof.
  induction s as [|c s (l & Hs & Hl)]; simpl.
  - exists EmptyString. split; reflexivity.
  - destruct (PyStr.isspace c) eqn:E.
    + exists (String c l). split.
      * change (String c s = String c (l +:+ PyStr.lstrip s)). f_equal. exact Hs.
      * simpl. rewrite E. exact Hl.
    + exists EmptyString. split; reflexivity.
Qed.

Lemma rstrip_split s :
  exists r, s = PyStr.rstrip s +:+ r /\ PyStr.all_space r = true.
Proof.
  induction s as [|c s (r & Hs & Hr)]; simpl.
  - exists EmptyString. split; reflexivity.
  - destruct (PyStr.rstrip s) as [|d t] eqn:E.
    + change (EmptyString +:+ r) with r in Hs.
      destruct (PyStr.isspace c) eqn:Ec.
      * exists (String c r). split.
        -- change (String c s = String c r). f_equal. exact Hs.
        -- simpl. rewrite Ec. exact Hr.
      * exists r. split; [|assumption].
        change (String c s = String c (EmptyString +:+ r)). f_equal. exact Hs.
    + exists r. split; [|assumption].
      change (String c s = String c (String d t +:+ r)). f_equal. exact Hs.
Qed.

(** [strip] removes blanks, only blanks, and only at the two ends. *)
Lemma strip_spec s :
  PyStr.head_space (PyStr.strip s) = false
  /\ PyStr.last_space (PyStr.strip s) = false
  /\ exists l r, s = l +:+ PyStr.strip s +:+ r
                 /\ PyStr.all_space l = true /\ PyStr.all_space r = true.
Proof.
  unfold PyStr.strip. split; [|split].
  - apply rstrip_head, lstrip_head.
  - apply rstrip_last.
  - destruct (lstrip_split s) as (l & Hs & Hl).
    destruct (rstrip_split (PyStr.lstrip s)) as (r & Ht & Hr).
    exists l, r. split; [|split; assumption].
    rewrite <- Ht. exact Hs.
Qed.

(** ** The stored record, field by field *)

Lemma coerce_value_idem v : coerce_value (coerce_value v) = coerce_value v.
Proof.
  destruct v as [|s| | | | | | |]; try reflexivity.
  unfold coerce_value. simpl.
  destruct (String.eqb s ""); [reflexivity|].
  destruct (PyFloat.of_string s); reflexivity.
Qed.

Lemma coerce_field_spec bd f :
  coerce_field bd f =
  match bd !! f with Some v => <[f := coerce_value v]> bd | None => bd end.
Proof.
  unfold coerce_field, coerce_value.
  destruct (bd !! f) as [v|] eqn:E; [|reflexivity].
  destruct (Py.eq v (VStr "")); [reflexivity|].
  destruct v as [|s| | | | | | |]; try (symmetry; apply insert_id; exact E).
  destruct (PyFloat.of_string s); reflexivity.
Qed.

Lemma coerce_field_lookup bd f g :
  coerce_field bd f !! g =
  if decide (f = g) then coerce_value <$> bd !! g else bd !! g.
Proof.
  rewrite coerce_field_spec.
  destruct (decide (f = g)) as [->|Hne].
  - destruct (bd !! g) as [v|] eqn:E; simpl.
    + apply lookup_insert_eq.
    + exact E.
  - destruct (bd !! f); [apply lookup_insert_ne; exact Hne | reflexivity].
Qed.

Lemma mem_cons x y l : mem x (y :: l) = String.eqb x y || mem x l.
Proof. reflexivity. Qed.

Lemma coerce_fold_lookup l bd g :
  fold_left coerce_field l bd !! g =
  if mem g l then coerce_value <$> bd !! g else bd !! g.
Proof.
  revert bd. induction l as [|f l IH]; intros bd; [reflexivity|].
  cbn [fold_left]. rewrite IH, mem_cons, coerce_field_lookup.
  destruct (decide (f = g)) as [->|Hne].
  - rewrite String.eqb_refl. simpl.
    destruct (mem g l); [|reflexivity].
    destruct (bd !! g); simpl; [rewrite coerce_value_idem|]; reflexivity.
  - destruct (String.eqb_spec g f) as [->|_]; [contradiction|]. reflexivity.
Qed.

Lemma coerce_numeric_lookup bd g :
  coerce_numeric bd !! g =
  if mem g numeric_fields then coerce_value <$> bd !! g else bd !! g.
Proof. apply coerce_fold_lookup. Qed.

Ltac each_column H :=
  unfold column_map in H; cbn [In] in H;
  repeat (destruct H as [H|H]; [injection H as <- <-|]); [..|contradiction].

Lemma fold_insert_lookup (h : string -> string -> value) l (m : gmap string value) g :
  fold_left (fun bd '(f, c) => <[f := h f c]> bd) l m !! g =
  match last_column l g with Some c => Some (h g c) | None => m !! g end.
Proof.
  induction l as [|[f c] l IH] using rev_ind; [reflexivity|].
  rewrite fold_left_app. cbn [fold_left].
  unfold last_column in *. rewrite rev_app_distr. cbn [rev app find fst].
  destruct (String.eqb_spec f g) as [->|Hne].
  - simpl. apply lookup_insert_eq.
  - rewrite lookup_insert_ne by exact Hne. exact IH.
Qed.

Lemma column_map_last f col :
  In (f, col) column_map -> last_column column_map f = Some col.
Proof.
  intros H. each_column H; vm_compute; reflexivity.
Qed.

Lemma extract_row_lookup ws r f col :
  In (f, col) column_map ->
  extract_row ws r !! f = Some (clean_value f (cell_value ws col r)).
Proof.
  intros H. unfold extract_row.
  rewrite (fold_insert_lookup (fun f c => clean_value f (cell_value ws c r))).
  rewrite (column_map_last _ _ H). reflexivity.
Qed.

(** The stored value of a field: the cell value cleaned, and coerced when
    the field is numeric. *)
Lemma record_of_lookup ws r f col :
  In (f, col) column_map ->
  record_of ws r !! f =
  Some (if mem f numeric_fields
        then coerce_value (clean_value f (cell_value ws col r))
        else clean_value f (cell_value ws col r)).
Proof.
  intros H. unfold record_of.
  rewrite coerce_numeric_lookup, (extract_row_lookup _ _ _ _ H).
  destruct (mem f numeric_fields); reflexivity.
Qed.

Lemma numeric_field_column f :
  In f numeric_fields -> exists col, In (f, col) column_map.
Proof.
  unfold numeric_fields. cbn [In]. intros H.
  repeat (destruct H as [<-|H]; [eexists; unfold column_map; cbn [In]; tauto|]).
  contradiction.
Qed.

Lemma mem_In x l : mem x l = true <-> In x l.
Proof.
  unfold mem. rewrite existsb_exists. split.
  - intros (y & Hy & E). apply String.eqb_eq in E. congruence.
  - intros H. exists x. split; [assumption | apply String.eqb_refl].
Qed.

(** ** The scan *)

Lemma loop_body_next ws st : loop_body ws st = Ok (next_state ws st).
Proof.
  unfold loop_body, next_state, accepted.
  destruct (no_customer ws (row st)); [reflexivity|].
  destruct (no_building_id ws (row st)); [reflexivity|].
  destruct (no_cleanable_sq_ft ws (row st)); [reflexivity|].
  cbn [negb andb]. cbv zeta. unfold Py.getitem.
  rewrite (record_of_lookup ws (row st) "customer" "B")
    by (unfold column_map; cbn [In]; tauto).
  replace (mem "customer" numeric_fields) with false by reflexivity.
  destruct (customer_name st); reflexivity.
Qed.

Lemma next_state_row ws st : row (next_state ws st) = row st + 1.
Proof. unfold next_state. destruct (accepted ws (row st)); reflexivity. Qed.

Lemma next_state_scanned ws st :
  scanned (next_state ws st) =
  (scanned st ++ map (record_of ws) (List.filter (accepted ws) [row st]))%list.
Proof.
  unfold next_state. cbn [List.filter].
  destruct (accepted ws (row st)); cbn [scanned map skip];
    [reflexivity | symmetry; apply app_nil_r].
Qed.

Lemma scan_exit fuel ws st :
  loop_cond ws st = false -> scan fuel ws st = Some (None, st).
Proof. intros H. destruct fuel; simpl; rewrite H; reflexivity. Qed.

(** With [n] rows left to visit, [n] iterations end the loop, and the
    records appended are those of the accepted rows, in order. *)
Lemma scan_steps ws (n : nat) : forall (fuel : nat) st,
  Z.of_nat n = Z.max 0 (Z.min (max_row ws) 100 + 1 - row st) ->
  (n <= fuel)%nat ->
  exists st',
    scan fuel ws st = Some (None, st')
    /\ row st' = row st + Z.of_nat n
    /\ scanned st' =
        (scanned st ++
         map (record_of ws) (List.filter (accepted ws) (seqZ (row st) (Z.of_nat n))))%list.
Proof.
  induction n as [|n IH]; intros fuel st Hn Hfuel.
  - exists st. split; [|split].
    + apply scan_exit. unfold loop_cond. lia.
    + lia.
    + rewrite seqZ_nil by lia. symmetry. apply app_nil_r.
  - destruct fuel as [|fuel]; [lia|].
    assert (Hc : loop_cond ws st = true) by (unfold loop_cond; lia).
    cbn [scan]. rewrite Hc, loop_body_next.
    destruct (IH fuel (next_state ws st)) as (st' & Hs & Hr & Hsc).
    { rewrite next_state_row. lia. }
    { lia. }
    exists st'. split; [exact Hs|]. split.
    + rewrite Hr, next_state_row. lia.
    + rewrite Hsc, next_state_scanned, next_state_row.
      rewrite (seqZ_cons (row st)) by lia.
      replace (Z.pred (Z.of_nat (S n))) with (Z.of_nat n) by lia.
      replace (Z.succ (row st)) with (row st + 1) by lia.
      change (row st :: seqZ (row st + 1) (Z.of_nat n))
        with ([row st] ++ seqZ (row st + 1) (Z.of_nat n))%list.
      rewrite List.filter_app, map_app, app_assoc. reflexivity.
Qed.

Lemma seqZ_max m len : seqZ m len = seqZ m (Z.max 0 len).
Proof. unfold seqZ. f_equal. f_equal. lia. Qed.

(** The scan from row 4 ends within 97 iterations, for every sheet. *)
Lemma scan_result ws :
  exists st,
    scan 97 ws scan_start = Some (None, st)
    /\ row st = Z.max 4 (Z.min (max_row ws) 100 + 1)
    /\ scanned st = map (record_of ws) (List.filter (accepted ws) (scan_rows ws)).
Proof.
  destruct (scan_steps ws (Z.to_nat (Z.min (max_row ws) 100 - 3)) 97 scan_start)
    as (st & Hs & Hr & Hsc).
  { cbn [row scan_start]. lia. }
  { lia. }
  exists st. split; [exact Hs|]. split.
  - rewrite Hr. cbn [row scan_start]. lia.
  - rewrite Hsc. cbn [row scanned scan_start app]. unfold scan_rows.
    rewrite (seqZ_max 4 (Z.min (max_row ws) 100 - 3)).
    do 3 f_equal. lia.
Qed.

Lemma extract_row_ext ws ws' r :
  (forall col, cell_value ws' col r = cell_value ws col r) ->
  extract_row ws' r = extract_row ws r.
Proof.
  intros H. unfold extract_row, column_map. cbn [fold_left].
  rewrite !H. reflexivity.
Qed.

Lemma loop_body_ext ws ws' st :
  (forall col, cell_value ws' col (row st) = cell_value ws col (row st)) ->
  loop_body ws' st = loop_body ws st.
Proof.
  intros H.
  unfold loop_body, record_of, no_customer, no_building_id, no_cleanable_sq_ft.
  rewrite (extract_row_ext _ _ _ H), !H. reflexivity.
Qed.

Lemma scan_ext ws ws' :
  same_scanned_rows ws ws' ->
  forall fuel st, 4 <= row st -> scan fuel ws' st = scan fuel ws st.
Proof.
  intros [Hmax Hcell] fuel.
  induction fuel as [|fuel IH]; intros st Hrow; cbn [scan];
    unfold loop_cond; rewrite Hmax; [reflexivity|].
  destruct ((row st <=? max_row ws) && (row st <=? 100)) eqn:Hc; [|reflexivity].
  rewrite (loop_body_ext ws ws' st) by (intros col; apply Hcell; lia).
  rewrite loop_body_next. rewrite IH by (rewrite next_state_row; lia).
  reflexivity.
Qed.

(** ** The loader as a whole *)

Lemma get_sheet_mem wb name ws :
  get_sheet wb name = Some ws -> mem name (sheetnames wb) = true.
Proof.
  induction wb as [|[n w] wb IH]; [discriminate|].
  cbn [get_sheet sheetnames map fst]. rewrite mem_cons.
  rewrite (String.eqb_sym name n).
  destruct (String.eqb n name); [reflexivity|]. exact IH.
Qed.

Lemma get_sheet_none wb name :
  get_sheet wb name = None -> mem name (sheetnames wb) = false.
Proof.
  induction wb as [|[n w] wb IH]; [reflexivity|].
  cbn [get_sheet sheetnames map fst]. rewrite mem_cons.
  rewrite (String.eqb_sym name n).
  destruct (String.eqb n name); [discriminate|]. exact IH.
Qed.

(** With the sheet present the load succeeds, and the stored records are
    those of the accepted rows among the scanned ones, in sheet order. *)
Lemma load_excel_data_records wb self ws :
  get_sheet wb "Janitorial Services" = Some ws ->
  exists self',
    load_excel_data wb self = Some (true, self')
    /\ buildings_data self' =
        map (record_of ws) (List.filter (accepted ws) (scan_rows ws)).
Proof.
  intros Hws. unfold load_excel_data, load_excel_data_fuel.
  rewrite (get_sheet_mem _ _ _ Hws), Hws. cbn [negb].
  destruct (scan_result ws) as (st & -> & _ & Hsc).
  eexists. split; [reflexivity|]. exact Hsc.
Qed.

Lemma load_excel_data_no_sheet wb self :
  get_sheet wb "Janitorial Services" = None ->
  load_excel_data wb self = Some (false, self).
Proof.
  intros Hws. unfold load_excel_data, load_excel_data_fuel.
  rewrite (get_sheet_none _ _ Hws). reflexivity.
Qed.

(** ** The mapper, one record at a time *)

Lemma bind_Ok {A B} (r : result A) (k : A -> result B) (b : B) :
  r ≫= k = Ok b -> exists a, r = Ok a /\ k a = Ok b.
Proof. destruct r as [a|e]; [exists a; split; [reflexivity | assumption] | discriminate]. Qed.

Tactic Notation "bind_step" hyp(H) ident(x) ident(E) :=
  match type of H with
  | mbind _ ?r = Ok _ =>
      destruct r as [x|] eqn:E; [cbn [mbind result_bind] in H | discriminate H]
  end.

Lemma getitem_Ok bd k v : Py.getitem bd k = Ok v <-> bd !! k = Some v.
Proof.
  unfold Py.getitem. destruct (bd !! k); split; intros H;
    try discriminate; congruence.
Qed.

(** A slot contributes one entry when its equipment type is truthy, none
    otherwise, and never fails. *)
Lemma equipment_slot_spec bd rental terms :
  equipment_slot bd rental terms =
  Ok (if Py.truthy (Py.get bd rental VNone)
      then [ {| equipmentType := Py.get bd rental VNone;
                contractTerm := contract_term (Py.get bd terms (VStr "")) |} ]
      else [])%list.
Proof.
  unfold equipment_slot, Py.get, Py.getitem, contract_term.
  destruct (bd !! rental) as [v|]; [|reflexivity].
  destruct (Py.truthy v); reflexivity.
Qed.

Lemma weeks_per_month_positive :
  PyFloat.ltb (S754_zero false) weeks_per_month = true
  /\ PyFloat.is_zero weeks_per_month = false.
Proof. split; reflexivity. Qed.

Lemma weekly_additional_costs_spec bd :
  weekly_additional_costs bd =
  Py.truediv (Py.get bd "additional_costs" (VInt 0)) weeks_per_month.
Proof. reflexivity. Qed.

Lemma truediv_total v :
  costs_ok v = true <-> exists w, Py.truediv v weeks_per_month = Ok w.
Proof.
  destruct v as [|s|z|f|b|d|t|d|d]; cbn [costs_ok Py.truediv]; unfold Py.float_of_int.
  - split; [discriminate | intros [w Hw]; discriminate].
  - split; [discriminate | intros [w Hw]; discriminate].
  - destruct (PyFloat.is_finite (PyFloat.of_Z z)); cbn [mbind result_bind].
    + split; [eexists; reflexivity | reflexivity].
    + split; [discriminate | intros [w Hw]; discriminate].
  - split; [eexists; reflexivity | reflexivity].
  - destruct b; split; intros; try reflexivity; eexists; reflexivity.
  - split; [discriminate | intros [w Hw]; discriminate].
  - split; [discriminate | intros [w Hw]; discriminate].
  - destruct (Py.timedelta_truediv d weeks_per_month) as [q|e];
      cbn [mbind result_bind].
    + split; [eexists; reflexivity | reflexivity].
    + split; [discriminate | intros [w Hw]; discriminate].
  - split; [discriminate | intros [w Hw]; discriminate].
Qed.

Lemma postal_code_total zip :
  zip_ok zip = true <-> exists pc, postal_code zip = Ok pc.
Proof.
  unfold zip_ok, postal_code.
  destruct (Py.truthy zip); cbn [negb orb].
  - destruct (Py.int zip); cbn [mbind result_bind]; split;
      try discriminate; try reflexivity;
      [eexists; reflexivity | intros [pc H]; discriminate].
  - split; [eexists; reflexivity | reflexivity].
Qed.

Lemma override_spec bd k :
  (if Py.truthy (Py.get bd k VNone)
   then v ← Py.getitem bd k; Ok (Some v)
   else Ok None) =
  Ok (if Py.truthy (Py.get bd k VNone) then Some (Py.get bd k VNone) else None).
Proof.
  unfold Py.get, Py.getitem.
  destruct (bd !! k) as [v|]; [|reflexivity].
  destruct (Py.truthy v); reflexivity.
Qed.

(** What a successful call of the loop body has read and built. *)
Lemma map_building_inv cn bd b :
  map_building cn bd = Ok b ->
  exists w bid ft st zip pc addr cty sq,
    weekly_additional_costs bd = Ok w
    /\ bd !! "building_id" = Some bid
    /\ bd !! "building_type" = Some ft
    /\ bd !! "state" = Some st
    /\ bd !! "zip" = Some zip
    /\ postal_code zip = Ok pc
    /\ bd !! "address" = Some addr
    /\ bd !! "city" = Some cty
    /\ bd !! "cleanable_sq_ft" = Some sq
    /\ buildingId b = Py.str bid
    /\ buildingRecordId b = "BLDG_" +:+ Py.str bid
    /\ buildingName b = Py.str cn +:+ " - " +:+ Py.str bid
    /\ facilityType b = ft
    /\ location b = {| loc_state := st; postalCode := pc; loc_address := addr;
                       loc_city := cty; country := "USA" |}
    /\ buildingDetails b =
       {| totalSquareFootage := Py.get bd "total_sq_ft" (VInt 0);
          cleanableSquareFootage := sq |}
    /\ exists svc,
         services b = [svc]
         /\ lineItemObjectId svc = "LINE_" +:+ Py.str bid
         /\ serviceType svc = "RJS"
         /\ serviceFrequency svc = "weekly"
         /\ schedule svc = week_of bd "sun" "mon" "tue" "wed" "thu" "fri" "sat"
         /\ inputs svc = [ {| itemName := "cleanableSquareFootage"; itemValue := sq |} ]
         /\ productivityOverride svc =
            (if Py.truthy (Py.get bd "alternate_productivity" VNone)
             then Some (Py.get bd "alternate_productivity" VNone) else None)
         /\ costAdjustments svc =
            {| hourlyWageAdjustment := VInt 0; weeklyAdditionalCosts := w |}
         /\ equipment svc =
            ((if Py.truthy (Py.get bd "equipment_rental_1" VNone)
              then [ {| equipmentType := Py.get bd "equipment_rental_1" VNone;
                        contractTerm :=
                          contract_term (Py.get bd "contract_terms_1" (VStr "")) |} ]
              else []) ++
             (if Py.truthy (Py.get bd "equipment_rental_2" VNone)
              then [ {| equipmentType := Py.get bd "equipment_rental_2" VNone;
                        contractTerm :=
                          contract_term (Py.get bd "contract_terms_2" (VStr "")) |} ]
              else []))%list
         /\ dayporterHours svc =
            week_of bd "dp_sun" "dp_mon" "dp_tue" "dp_wed" "dp_thu" "dp_fri" "dp_sat"
         /\ dayporterHourlyWageAdjustment svc = Py.get bd "wage_adjustment" (VInt 0)
         /\ supervisorHours svc =
            week_of bd "sup_sun" "sup_mon" "sup_tue" "sup_wed" "sup_thu" "sup_fri" "sup_sat".
Proof.
  intros H. unfold map_building in H.
  rewrite !equipment_slot_spec in H. cbn [mbind result_bind] in H.
  rewrite override_spec in H. cbn [mbind result_bind] in H.
  bind_step H w Ew.
  bind_step H bid Eid. bind_step H ft Eft. bind_step H st Est.
  bind_step H zip Ezip. bind_step H pc Epc. bind_step H addr Eaddr.
  bind_step H cty Ecty. bind_step H sq Esq.
  injection H as <-.
  apply getitem_Ok in Eid, Eft, Est, Ezip, Eaddr, Ecty, Esq.
  exists w, bid, ft, st, zip, pc, addr, cty, sq.
  repeat (split; [first [assumption | reflexivity]|]).
  eexists. repeat (split; [reflexivity|]). reflexivity.
Qed.

Lemma has_key_true bd k : has_key bd k = true -> exists v, bd !! k = Some v.
Proof. unfold has_key. destruct (bd !! k) as [v|]; [eauto | discriminate]. Qed.

(** The loop body returns a Building exactly for the mappable records. *)
Lemma map_building_total cn bd :
  mappable bd = true <-> exists b, map_building cn bd = Ok b.
Proof.
  split.
  - unfold mappable. cbn [forallb]. rewrite !andb_true_iff.
    intros [[(Hid & Hft & Hst & Hzip & Haddr & Hcty & Hsq & _) Hz] Hc].
    apply has_key_true in Hid as [bid Hid], Hft as [ft Hft], Hst as [st Hst],
      Hzip as [zip Hzip], Haddr as [addr Haddr], Hcty as [cty Hcty],
      Hsq as [sq Hsq].
    unfold Py.get in Hz. rewrite Hzip in Hz.
    apply postal_code_total in Hz as [pc Hpc].
    apply truediv_total in Hc as [w Hw].
    unfold map_building. rewrite !equipment_slot_spec.
    cbn [mbind result_bind].
    rewrite override_spec. cbn [mbind result_bind].
    rewrite weekly_additional_costs_spec, Hw. cbn [mbind result_bind].
    unfold Py.getitem. rewrite Hid, Hft, Hst, Hzip, Haddr, Hcty, Hsq.
    cbn [mbind result_bind]. rewrite Hpc. cbn [mbind result_bind].
    eexists. reflexivity.
  - intros [b Hb]. apply map_building_inv in Hb
      as (w & bid & ft & st & zip & pc & addr & cty & sq & Hw & Hid & Hft & Hst
          & Hzip & Hpc & Haddr & Hcty & Hsq & _).
    unfold mappable, has_key, Py.get. cbn [forallb].
    rewrite Hid, Hft, Hst, Hzip, Haddr, Hcty, Hsq. cbn [andb].
    rewrite weekly_additional_costs_spec in Hw. unfold Py.get in Hw.
    rewrite andb_true_iff. split.
    + apply postal_code_total. eauto.
    + apply truediv_total. eauto.
Qed.

(** ** The mapper as a whole *)

Lemma map_buildings_Ok cn rows bs :
  map_buildings cn rows = Ok bs ->
  Forall2 (fun bd b => map_building cn bd = Ok b) rows bs.
Proof.
  revert bs. induction rows as [|bd rows IH]; intros bs H; cbn [map_buildings] in H.
  - injection H as <-. constructor.
  - bind_step H b Eb. bind_step H bs' Ebs. injection H as <-.
    constructor; [exact Eb | apply IH; reflexivity].
Qed.

Lemma map_buildings_total cn rows :
  forallb mappable rows = true <-> exists bs, map_buildings cn rows = Ok bs.
Proof.
  induction rows as [|bd rows IH]; cbn [forallb map_buildings].
  - split; [eexists; reflexivity | reflexivity].
  - rewrite andb_true_iff, IH, (map_building_total cn). split.
    + intros [[b Hb] [bs Hbs]]. rewrite Hb, Hbs. eexists. reflexivity.
    + intros [bs H]. bind_step H b Eb. bind_step H bs' Ebs. eauto.
Qed.

(** A returned document holds the Buildings of the records, in order. *)
Lemma convert_Some now self d :
  convert_to_api_json now self = Ok (Some d) ->
  buildings_data self <> []
  /\ Forall2
       (fun bd b =>
          map_building
            (Py.get (customer_info self) "customer_name" (VStr "Unknown Customer"))
            bd = Ok b)
       (buildings_data self) (buildings d).
Proof.
  unfold convert_to_api_json.
  destruct (buildings_data self) as [|bd rows] eqn:E; [discriminate|].
  intros H. cbv zeta in H. bind_step H bs Ebs. injection H as <-.
  split; [discriminate|]. cbn [buildings]. apply map_buildings_Ok, Ebs.
Qed.

Lemma convert_None now self :
  convert_to_api_json now self = Ok None <-> buildings_data self = [].
Proof.
  unfold convert_to_api_json.
  destruct (buildings_data self) as [|bd rows]; [tauto|]. cbv zeta.
  destruct (map_buildings _ (bd :: rows)); cbn [mbind result_bind];
    split; discriminate.
Qed.

Lemma convert_total now self :
  buildings_data self <> [] ->
  forallb mappable (buildings_data self) = true
  <-> exists d, convert_to_api_json now self = Ok (Some d).
Proof.
  intros Hne. unfold convert_to_api_json.
  destruct (buildings_data self) as [|bd rows] eqn:E; [contradiction|].
  cbv zeta. rewrite (map_buildings_total
    (Py.get (customer_info self) "customer_name" (VStr "Unknown Customer"))).
  split.
  - intros [bs ->]. eexists. reflexivity.
  - intros [d H]. bind_step H bs Ebs. eauto.
Qed.

Lemma Forall2_map_eq {A B C} (f : A -> C) (g : B -> C) l l' :
  Forall2 (fun a b => g b = f a) l l' -> map g l' = map f l.
Proof. induction 1; cbn [map]; congruence. Qed.

(** ** The stored numeric fields *)

Lemma numeric_not_string f :
  In f numeric_fields ->
  mem f string_fields = false /\ String.eqb f "building_type" = false.
Proof.
  unfold numeric_fields. cbn [In]. intros H.
  repeat (destruct H as [<-|H]; [split; reflexivity|]). contradiction.
Qed.

Lemma stored_numeric_spec f v :
  In f numeric_fields -> coerce_value (clean_value f v) = stored_numeric v.
Proof.
  intros H. destruct (numeric_not_string f H) as [Hs Hb].
  destruct v as [|s|z|x|b|d|t|d|d]; cbn [clean_value stored_numeric];
    rewrite ?Hs, ?Hb; try reflexivity.
  unfold coerce_value. cbn [Py.eq].
  destruct (String.eqb_spec (PyStr.strip s) "") as [E|E]; [|reflexivity].
  rewrite E. reflexivity.
Qed.

Lemma record_numeric ws r f col :
  In f numeric_fields -> In (f, col) column_map ->
  record_of ws r !! f = Some (stored_numeric (cell_value ws col r)).
Proof.
  intros H Hcol.
  rewrite (record_of_lookup _ _ _ _ Hcol), (proj2 (mem_In f numeric_fields) H).
  rewrite (stored_numeric_spec f _ H). reflexivity.
Qed.

(** * The claims of the specification *)

(** ** Row filtering *)

Lemma truthy_not_empty v : Py.truthy v = true -> empty_cell v = false.
Proof. destruct v as [|s| | | | | | |]; try reflexivity; try discriminate.
       cbn [Py.truthy empty_cell]. destruct (PyStr.is_empty s); [discriminate | reflexivity]. Qed.

Lemma is_empty_eqb s : String.eqb s "" = PyStr.is_empty s.
Proof. destruct s; reflexivity. Qed.

Lemma accepted_spec ws r :
  accepted ws r = true <->
  Py.truthy (cell_value ws "B" r) = true
  /\ Py.truthy (cell_value ws "C" r) = true
  /\ PyStr.is_empty (PyStr.strip (Py.str (cell_value ws "C" r))) = false
  /\ Py.truthy (cell_value ws "K" r) = true
  /\ Py.eq (cell_value ws "K" r) (VInt 0) = false.
Proof.
  unfold accepted, no_customer, no_building_id, no_cleanable_sq_ft.
  rewrite is_empty_eqb.
  destruct (Py.truthy (cell_value ws "B" r)),
           (Py.truthy (cell_value ws "C" r)),
           (PyStr.is_empty (PyStr.strip (Py.str (cell_value ws "C" r)))),
           (Py.truthy (cell_value ws "K" r)),
           (Py.eq (cell_value ws "K" r) (VInt 0)); cbn; intuition discriminate.
Qed.

Lemma float_integer_nonzero f :
  PyFloat.is_zero f = false -> Py.float_integer f <> Some 0.
Proof.
  destruct f as [z|i| |s m e]; cbn [PyFloat.is_zero Py.float_integer];
    try discriminate.
  intros _. destruct (0 <=? e) eqn:He.
  - apply Z.leb_le in He.
    assert (0 < Z.pos m * 2 ^ e) by (apply Z.mul_pos_pos; lia).
    destruct s; intros [= E]; lia.
  - apply Z.leb_gt in He.
    destruct (Z.pos m mod 2 ^ (- e) =? 0) eqn:Hm; [|discriminate].
    apply Z.eqb_eq in Hm.
    assert (Hp : 0 < 2 ^ (- e)) by (apply Z.pow_pos_nonneg; lia).
    pose proof (Z.div_mod (Z.pos m) (2 ^ (- e)) ltac:(lia)) as Hd.
    rewrite Hm in Hd.
    assert (Z.pos m / 2 ^ (- e) <> 0).
    { intros E. rewrite E in Hd. lia. }
    destruct s; intros [= E]; lia.
Qed.

(** The guard of line 94 on the cell, and what it means for the footage
    the loader stores from it. *)
Lemma footage_guard v :
  text_footage_zero v = false ->
  Py.truthy v && negb (Py.eq v (VInt 0)) = footage_given v.
Proof.
  unfold text_footage_zero, footage_given.
  destruct v as [|s|z|x|b|d|t|d|d];
    cbn [Py.is_str Py.truthy Py.eq empty_cell stored_numeric andb negb];
    try reflexivity.
  - destruct (PyStr.is_empty s); cbn [negb andb]; [reflexivity|].
    intros H. apply negb_false_iff in H. rewrite H. reflexivity.
  - intros _. destruct (z =? 0); reflexivity.
  - intros _. destruct (PyFloat.is_zero x) eqn:Hx; [reflexivity|].
    cbn [negb andb]. pose proof (float_integer_nonzero x Hx) as Hf.
    destruct (Py.float_integer x) as [y|]; [|reflexivity].
    destruct (0 =? y) eqn:Hy; [|reflexivity].
    apply Z.eqb_eq in Hy. subst y. contradiction.
  - intros _. destruct b; reflexivity.
  - intros _. rewrite andb_true_r. reflexivity.
Qed.

(** C1, as the code has it: with the sheet present, the load succeeds and
    the stored records are exactly the records of the scanned rows that
    pass the three guards, in sheet order, nothing else, and the mapper
    builds from the stored records only. For every row whose cleanable-
    square-footage cell is not a text that the loader stores as zero, the
    row passes the guards exactly when its customer cell is truthy, its
    building-id cell is truthy and not blank once its text form is
    trimmed, and its footage cell is present with a stored footage that
    is not zero; the footage stored for such a row that passes is not
    zero. A row that passes has no empty cell among the three. For a
    footage text that the loader stores as zero the guards are not
    characterised. *)
Theorem loader_keeps_accepted_rows wb self ws :
  get_sheet wb "Janitorial Services" = Some ws ->
  exists self',
    load_excel_data wb self = Some (true, self')
    /\ buildings_data self' =
        map (record_of ws) (List.filter (accepted ws) (scan_rows ws))
    /\ (forall r,
          text_footage_zero (cell_value ws "K" r) = false ->
          (accepted ws r = true <->
           Py.truthy (cell_value ws "B" r) = true
           /\ Py.truthy (cell_value ws "C" r) = true
           /\ PyStr.is_empty (PyStr.strip (Py.str (cell_value ws "C" r))) = false
           /\ footage_given (cell_value ws "K" r) = true))
    /\ (forall r,
          text_footage_zero (cell_value ws "K" r) = false ->
          accepted ws r = true ->
          exists v, record_of ws r !! "cleanable_sq_ft" = Some v
                    /\ v = stored_numeric (cell_value ws "K" r)
                    /\ Py.truthy v = true)
    /\ (forall r, accepted ws r = true -> spec_accepted ws r = true)
    /\ (forall now d,
          convert_to_api_json now self' = Ok (Some d) ->
          length (buildings d) =
          length (List.filter (accepted ws) (scan_rows ws))).
Proof.
  intros Hws.
  destruct (load_excel_data_records wb self ws Hws) as (self' & Hload & Hrec).
  assert (Hguard : forall r,
            text_footage_zero (cell_value ws "K" r) = false ->
            (accepted ws r = true <->
             Py.truthy (cell_value ws "B" r) = true
             /\ Py.truthy (cell_value ws "C" r) = true
             /\ PyStr.is_empty (PyStr.strip (Py.str (cell_value ws "C" r))) = false
             /\ footage_given (cell_value ws "K" r) = true)).
  { intros r Hk. rewrite accepted_spec, <- (footage_guard _ Hk).
    rewrite andb_true_iff, negb_true_iff. tauto. }
  exists self'. split; [exact Hload|]. split; [exact Hrec|].
  split; [exact Hguard|]. split; [|split].
  - intros r Hk Hr. apply (Hguard r Hk) in Hr as (_ & _ & _ & Hf).
    exists (stored_numeric (cell_value ws "K" r)).
    split; [|split; [reflexivity|]].
    + apply record_numeric; [unfold numeric_fields | unfold column_map];
        cbn [In]; tauto.
    + unfold footage_given in Hf. apply andb_true_iff in Hf. apply Hf.
  - intros r Hr. apply accepted_spec in Hr as (Hb & Hc & Hs & Hk & Hz).
    unfold spec_accepted.
    rewrite (truthy_not_empty _ Hb), (truthy_not_empty _ Hc),
      (truthy_not_empty _ Hk), Hs, Hz. reflexivity.
  - intros now d Hd. apply convert_Some in Hd as [_ Hd].
    apply Forall2_length in Hd. rewrite <- Hd, Hrec. apply length_map.
Qed.

Lemma loader_keeps_accepted_rows_witness :
  get_sheet (passport acme_cells) "Janitorial Services" = Some (sheet_of acme_cells)
  /\ exists self',
       load_excel_data (passport acme_cells) new_converter = Some (true, self')
       /\ buildings_data self' =
           map (record_of (sheet_of acme_cells))
             (List.filter (accepted (sheet_of acme_cells))
                (scan_rows (sheet_of acme_cells))).
Proof.
  split; [reflexivity|].
  destruct (loader_keeps_accepted_rows (passport acme_cells) new_converter
              (sheet_of acme_cells) eq_refl) as (self' & Hload & Hrec & _).
  exists self'. split; assumption.
Defined.

(** C1, as stated, fails: in this sheet row 4 is scanned, its customer
    cell is not empty, its building-id cell holds the number 0, which is
    not empty after trimming, and its cleanable square footage is 5000;
    the loader stores no record for it. *)
Lemma zero_building_id_is_skipped :
  In 4 (scan_rows (sheet_of zero_id_cells))
  /\ spec_accepted (sheet_of zero_id_cells) 4 = true
  /\ PyStr.strip (Py.str (cell_value (sheet_of zero_id_cells) "C" 4)) = "0"
  /\ load_excel_data (passport zero_id_cells) new_converter
     = Some (true, new_converter).
Proof.
  split; [vm_compute; tauto|]. split; [vm_compute; reflexivity|].
  split; vm_compute; reflexivity.
Qed.

(** ** The bounds of the scan *)

(** C9: the scan starts at row 4, ends within 97 iterations for every
    sheet, without an exception, with the loop variable one past the lesser
    of [max_row] and 100 (or still 4 on a shorter sheet); the rows it visits
    are exactly the rows from 4 to that bound, the records it keeps come
    from those rows, and a sheet that differs only outside those rows ends
    the scan in the same state. *)
Theorem scan_is_bounded ws ws' :
  same_scanned_rows ws ws' ->
  exists st,
    scan 97 ws scan_start = Some (None, st)
    /\ scan 97 ws' scan_start = Some (None, st)
    /\ row st = Z.max 4 (Z.min (max_row ws) 100 + 1)
    /\ scanned st = map (record_of ws) (List.filter (accepted ws) (scan_rows ws))
    /\ (forall r, In r (scan_rows ws) <-> 4 <= r <= max_row ws /\ r <= 100)
    /\ (length (scan_rows ws) <= 97)%nat.
Proof.
  intros Hsame.
  destruct (scan_result ws) as (st & Hs & Hr & Hsc).
  exists st. split; [exact Hs|]. split.
  { rewrite (scan_ext ws ws' Hsame) by (cbn; lia). exact Hs. }
  split; [exact Hr|]. split; [exact Hsc|]. split.
  - intros r. unfold scan_rows. rewrite <- list_elem_of_In, elem_of_seqZ. lia.
  - unfold scan_rows. rewrite length_seqZ. lia.
Qed.

Lemma long_cells_same :
  same_scanned_rows (sheet_of (long_cells "Late")) (sheet_of (long_cells "Other")).
Proof.
  split; [vm_compute; reflexivity|]. intros col r _ Hr.
  unfold sheet_of, long_cells, acme_cells. cbn [cell_value app lookup_cell].
  replace (150 =? r) with false by lia.
  rewrite !andb_false_r. reflexivity.
Qed.

Lemma scan_is_bounded_witness :
  same_scanned_rows (sheet_of (long_cells "Late")) (sheet_of (long_cells "Other"))
  /\ exists st,
       scan 97 (sheet_of (long_cells "Late")) scan_start = Some (None, st)
       /\ scan 97 (sheet_of (long_cells "Other")) scan_start = Some (None, st)
       /\ row st = 101.
Proof.
  split; [exact long_cells_same|].
  destruct (scan_is_bounded _ _ long_cells_same) as (st & H1 & H2 & Hr & _).
  exists st. split; [exact H1|]. split; [exact H2|]. exact Hr.
Defined.

(** ** One Building per record *)

Lemma acme_loads :
  load_excel_data (passport acme_cells) new_converter = Some (true, acme_loaded).
Proof. vm_compute. reflexivity. Qed.

Lemma acme_converts :
  convert_to_api_json "20260101_000000" acme_loaded = Ok (Some acme_deal).
Proof. vm_compute. reflexivity. Qed.

(** C2, as the code has it: from a non-empty list of records the mapper
    never returns [None]; when every record can be mapped (it has the
    fields the mapper subscripts, its postal code can be rendered and its
    monthly costs can be divided) the mapper returns a document with
    exactly one Building per record, in the order of the records, the
    [buildingId] of each being the text form of the [building_id] of its
    record; and every document the mapper returns is such a document, of
    records that can all be mapped. *)
Theorem one_building_per_row now self :
  buildings_data self <> [] ->
  convert_to_api_json now self <> Ok None
  /\ (forallb mappable (buildings_data self) = true ->
      exists d,
        convert_to_api_json now self = Ok (Some d)
        /\ map buildingId (buildings d) =
           map (fun bd => Py.str (Py.get bd "building_id" VNone)) (buildings_data self)
        /\ length (buildings d) = length (buildings_data self))
  /\ (forall d,
        convert_to_api_json now self = Ok (Some d) ->
        forallb mappable (buildings_data self) = true
        /\ map buildingId (buildings d) =
           map (fun bd => Py.str (Py.get bd "building_id" VNone)) (buildings_data self)
        /\ length (buildings d) = length (buildings_data self)).
Proof.
  intros Hne.
  assert (Hshape : forall d,
            convert_to_api_json now self = Ok (Some d) ->
            map buildingId (buildings d) =
            map (fun bd => Py.str (Py.get bd "building_id" VNone)) (buildings_data self)
            /\ length (buildings d) = length (buildings_data self)).
  { intros d Hd. apply convert_Some in Hd as [_ Hd]. split.
    - apply Forall2_map_eq. eapply Forall2_impl; [exact Hd|].
      intros bd b Hb. cbv beta in Hb. apply map_building_inv in Hb
        as (w & bid & ft & st & zip & pc & addr & cty & sq & _ & Hid & _ & _ & _
            & _ & _ & _ & _ & Hb & _).
      unfold Py.get. rewrite Hid. exact Hb.
    - symmetry. eapply Forall2_length, Hd. }
  split; [|split].
  - intros H. apply convert_None in H. contradiction.
  - intros Hm. apply (convert_total now self Hne) in Hm as [d Hd].
    exists d. split; [exact Hd|]. apply Hshape, Hd.
  - intros d Hd. split; [|apply Hshape, Hd].
    apply (convert_total now self Hne). exists d. exact Hd.
Qed.

Lemma one_building_per_row_witness :
  buildings_data acme_loaded <> []
  /\ forallb mappable (buildings_data acme_loaded) = true
  /\ exists d,
       convert_to_api_json "20260101_000000" acme_loaded = Ok (Some d)
       /\ map buildingId (buildings d) = ["B1"; "B2"]%list.
Proof.
  assert (Hm : forallb mappable (buildings_data acme_loaded) = true)
    by (vm_compute; reflexivity).
  split; [discriminate|]. split; [exact Hm|].
  destruct (one_building_per_row "20260101_000000" acme_loaded) as (_ & H & _);
    [discriminate|].
  destruct (H Hm) as (d & Hd & Hmap & _).
  exists d. split; [exact Hd|]. rewrite Hmap. vm_compute. reflexivity.
Defined.

(** C2, as stated, fails: in this sheet row 4 is the one accepted row, the
    load stores its record, whose postal code is the float NaN parsed from
    the text [nan], and the mapper raises [ValueError]: it produces no
    Building for the accepted row. *)
Lemma accepted_row_without_building :
  List.filter (accepted (sheet_of nan_zip_cells)) (scan_rows (sheet_of nan_zip_cells))
  = [4]
  /\ load_excel_data (passport nan_zip_cells) new_converter
     = Some (true, nan_zip_loaded)
  /\ buildings_data nan_zip_loaded = [record_of (sheet_of nan_zip_cells) 4]
  /\ forallb mappable (buildings_data nan_zip_loaded) = false
  /\ convert_to_api_json "20260101_000000" nan_zip_loaded = Raise ValueError.
Proof.
  split; [vm_compute; reflexivity|]. split; [vm_compute; reflexivity|].
  split; [reflexivity|]. split; vm_compute; reflexivity.
Qed.

(** ** Equipment *)

Lemma contract_term_int z :
  contract_term (VInt z) =
  if 12 =? z then "12" else if 24 =? z then "24"
  else if 36 =? z then "36" else if 60 =? z then "60" else "".
Proof. reflexivity. Qed.

Lemma contract_term_str s :
  contract_term (VStr s) =
  if String.eqb "12" s then "12" else if String.eqb "24" s then "24"
  else if String.eqb "36" s then "36" else if String.eqb "60" s then "60" else "".
Proof.
  unfold contract_term, contract_terms_map. cbn [table_get Py.eq].
  repeat match goal with |- context [String.eqb ?a s] => destruct (String.eqb a s) end;
    reflexivity.
Qed.

(** C5: in a returned document the equipment of each Building's service is
    the entries of slot 1 followed by those of slot 2, a slot giving one
    entry exactly when its equipment type is truthy; the contract term of
    an entry is the text of the term for the integers and the texts 12, 24,
    36 and 60, and the empty text for every value equal to no key of the
    table, as 99 is. *)
Theorem equipment_entries now self d :
  convert_to_api_json now self = Ok (Some d) ->
  Forall2
    (fun bd b =>
       exists svc,
         services b = [svc]
         /\ equipment svc =
            (slot_entries bd "equipment_rental_1" "contract_terms_1" ++
             slot_entries bd "equipment_rental_2" "contract_terms_2")%list)
    (buildings_data self) (buildings d)
  /\ (forall z, In z term_numbers ->
        contract_term (VInt z) = PyStr.of_Z z
        /\ contract_term (VStr (PyStr.of_Z z)) = PyStr.of_Z z)
  /\ (forall v, (forall k, In k (map fst contract_terms_map) -> Py.eq k v = false) ->
        contract_term v = "")
  /\ (forall z, ~ In z term_numbers -> contract_term (VInt z) = "")
  /\ (forall s, ~ In s (map PyStr.of_Z term_numbers) -> contract_term (VStr s) = "")
  /\ contract_term (VInt 36) = "36"
  /\ contract_term (VStr "36") = "36"
  /\ contract_term (VInt 99) = "".
Proof.
  intros Hd. split.
  { apply convert_Some in Hd as [_ Hd]. eapply Forall2_impl; [exact Hd|].
    intros bd b Hb. cbv beta in Hb. apply map_building_inv in Hb
      as (w & bid & ft & st & zip & pc & addr & cty & sq & _ & _ & _ & _ & _
          & _ & _ & _ & _ & _ & _ & _ & _ & _ & _ & svc & Hsvc & _ & _ & _ & _
          & _ & _ & _ & Heq & _).
    exists svc. split; [exact Hsvc | exact Heq]. }
  split.
  { intros z Hz. unfold term_numbers in Hz. cbn [In] in Hz.
    repeat (destruct Hz as [<-|Hz]; [split; reflexivity|]). contradiction. }
  split.
  { intros v Hv. unfold contract_term, contract_terms_map in *.
    cbn [map fst In] in Hv. cbn [table_get].
    rewrite !Hv by tauto. reflexivity. }
  split.
  { intros z Hz. rewrite contract_term_int. unfold term_numbers in Hz. cbn [In] in Hz.
    repeat match goal with
           | |- context [?a =? z] =>
               destruct (Z.eqb_spec a z); [exfalso; apply Hz; tauto|]
           end.
    reflexivity. }
  split.
  { intros s Hs. rewrite contract_term_str.
    change (map PyStr.of_Z term_numbers) with ["12"; "24"; "36"; "60"]%list in Hs.
    cbn [In] in Hs.
    repeat match goal with
           | |- context [String.eqb ?a s] =>
               destruct (String.eqb_spec a s); [exfalso; apply Hs; tauto|]
           end.
    reflexivity. }
  repeat split.
Qed.

Lemma equipment_entries_witness :
  convert_to_api_json "20260101_000000" acme_loaded = Ok (Some acme_deal)
  /\ map (fun b => map (fun svc => equipment svc) (services b)) (buildings acme_deal) =
     [ [ [ {| equipmentType := VStr "Vacuum"; contractTerm := "24" |} ] ];
       [ [ {| equipmentType := VStr "Scrubber"; contractTerm := "36" |};
           {| equipmentType := VStr "Buffer"; contractTerm := "" |} ] ] ]%list
  /\ Forall2
       (fun bd b =>
          exists svc,
            services b = [svc]
            /\ equipment svc =
               (slot_entries bd "equipment_rental_1" "contract_terms_1" ++
                slot_entries bd "equipment_rental_2" "contract_terms_2")%list)
       (buildings_data acme_loaded) (buildings acme_deal).
Proof.
  split; [exact acme_converts|]. split; [reflexivity|].
  exact (proj1 (equipment_entries _ _ _ acme_converts)).
Defined.

(** ** Wage adjustment *)

(** C6: in a returned document the service of each Building has
    [hourlyWageAdjustment] 0 whatever the record holds, and
    [dayporterHourlyWageAdjustment] equal to the [wage_adjustment] of its
    record, which is what the loader stored for cell AO of the row. *)
Theorem wage_adjustment_mapping now self d :
  convert_to_api_json now self = Ok (Some d) ->
  Forall2
    (fun bd b =>
       exists svc,
         services b = [svc]
         /\ hourlyWageAdjustment (costAdjustments svc) = VInt 0
         /\ dayporterHourlyWageAdjustment svc = Py.get bd "wage_adjustment" (VInt 0))
    (buildings_data self) (buildings d)
  /\ (forall ws r,
        Py.get (record_of ws r) "wage_adjustment" (VInt 0) =
        coerce_value (clean_value "wage_adjustment" (cell_value ws "AO" r))).
Proof.
  intros Hd. split.
  - apply convert_Some in Hd as [_ Hd]. eapply Forall2_impl; [exact Hd|].
    intros bd b Hb. cbv beta in Hb. apply map_building_inv in Hb
      as (w & bid & ft & st & zip & pc & addr & cty & sq & _ & _ & _ & _ & _
          & _ & _ & _ & _ & _ & _ & _ & _ & _ & _ & svc & Hsvc & _ & _ & _ & _
          & _ & _ & Hcost & _ & _ & Hdp & _).
    exists svc. split; [exact Hsvc|]. split; [rewrite Hcost; reflexivity | exact Hdp].
  - intros ws r. unfold Py.get.
    rewrite (record_of_lookup ws r "wage_adjustment" "AO")
      by (unfold column_map; cbn [In]; tauto).
    reflexivity.
Qed.

Lemma wage_adjustment_mapping_witness :
  convert_to_api_json "20260101_000000" acme_loaded = Ok (Some acme_deal)
  /\ map (fun bd => Py.get bd "wage_adjustment" (VInt 0)) (buildings_data acme_loaded)
     = [VInt 0; VInt 2]%list
  /\ map (fun b => map (fun svc => (hourlyWageAdjustment (costAdjustments svc),
                                    dayporterHourlyWageAdjustment svc))
                     (services b)) (buildings acme_deal)
     = [ [ (VInt 0, VInt 0) ]; [ (VInt 0, VInt 2) ] ]%list
  /\ Forall2
       (fun bd b =>
          exists svc,
            services b = [svc]
            /\ hourlyWageAdjustment (costAdjustments svc) = VInt 0
            /\ dayporterHourlyWageAdjustment svc = Py.get bd "wage_adjustment" (VInt 0))
       (buildings_data acme_loaded) (buildings acme_deal).
Proof.
  split; [exact acme_converts|]. split; [vm_compute; reflexivity|].
  split; [reflexivity|].
  exact (proj1 (wage_adjustment_mapping _ _ _ acme_converts)).
Defined.

(** ** Weekly additional costs *)

(** C7: in a returned document the [weeklyAdditionalCosts] of each
    Building's service is the [additional_costs] of its record divided by
    the double 4.33: the float quotient for a float, the quotient of the
    nearest double for an integer; 433 gives the double 100, printed
    [100.0]. *)
Theorem weekly_costs_from_monthly now self d :
  convert_to_api_json now self = Ok (Some d) ->
  Forall2
    (fun bd b =>
       exists svc,
         services b = [svc]
         /\ Py.truediv (Py.get bd "additional_costs" (VInt 0)) weeks_per_month
            = Ok (weeklyAdditionalCosts (costAdjustments svc)))
    (buildings_data self) (buildings d)
  /\ PyFloat.of_string "4.33" = Some weeks_per_month
  /\ (forall x, Py.truediv (VFloat x) weeks_per_month
               = Ok (VFloat (PyFloat.div x weeks_per_month)))
  /\ (forall z, PyFloat.is_finite (PyFloat.of_Z z) = true ->
               Py.truediv (VInt z) weeks_per_month
               = Ok (VFloat (PyFloat.div (PyFloat.of_Z z) weeks_per_month)))
  /\ Py.truediv (VInt 433) weeks_per_month = Ok (VFloat (PyFloat.of_Z 100))
  /\ PyFloat.of_string "100.0" = Some (PyFloat.of_Z 100)
  /\ Py.str (VFloat (PyFloat.of_Z 100)) = "100.0".
Proof.
  intros Hd. split.
  { apply convert_Some in Hd as [_ Hd]. eapply Forall2_impl; [exact Hd|].
    intros bd b Hb. cbv beta in Hb. apply map_building_inv in Hb
      as (w & bid & ft & st & zip & pc & addr & cty & sq & Hw & _ & _ & _ & _
          & _ & _ & _ & _ & _ & _ & _ & _ & _ & _ & svc & Hsvc & _ & _ & _ & _
          & _ & _ & Hcost & _).
    exists svc. split; [exact Hsvc|].
    rewrite Hcost. cbn [weeklyAdditionalCosts].
    rewrite <- weekly_additional_costs_spec. exact Hw. }
  split; [vm_compute; reflexivity|].
  split; [reflexivity|].
  split.
  { intros z Hz. cbn [Py.truediv]. unfold Py.float_of_int. rewrite Hz. reflexivity. }
  split; [vm_compute; reflexivity|].
  split; vm_compute; reflexivity.
Qed.

Lemma weekly_costs_from_monthly_witness :
  convert_to_api_json "20260101_000000" acme_loaded = Ok (Some acme_deal)
  /\ map (fun bd => Py.get bd "additional_costs" (VInt 0)) (buildings_data acme_loaded)
     = [VInt 0; VInt 433]%list
  /\ map (fun b => map (fun svc => Py.str (weeklyAdditionalCosts (costAdjustments svc)))
                     (services b)) (buildings acme_deal)
     = [ [ "0.0" ]; [ "100.0" ] ]%list
  /\ Forall2
       (fun bd b =>
          exists svc,
            services b = [svc]
            /\ Py.truediv (Py.get bd "additional_costs" (VInt 0)) weeks_per_month
               = Ok (weeklyAdditionalCosts (costAdjustments svc)))
       (buildings_data acme_loaded) (buildings acme_deal).
Proof.
  split; [exact acme_converts|]. split; [vm_compute; reflexivity|].
  split; [vm_compute; reflexivity|].
  exact (proj1 (weekly_costs_from_monthly _ _ _ acme_converts)).
Defined.

(** ** No rows, no document *)

(** C8: without records the mapper returns [None]; and whenever it returns
    a document, there were records and the document has Buildings, so that
    [None] is never confused with a document of zero Buildings. *)
Theorem no_rows_no_document now self :
  buildings_data self = [] ->
  convert_to_api_json now self = Ok None
  /\ (forall self' d,
        convert_to_api_json now self' = Ok (Some d) ->
        buildings_data self' <> [] /\ buildings d <> [])
  /\ (forall self', convert_to_api_json now self' = Ok None -> buildings_data self' = []).
Proof.
  intros Hnil. split; [apply convert_None, Hnil|]. split.
  - intros self' d Hd. apply convert_Some in Hd as [Hne Hd].
    split; [exact Hne|]. intros Hb. rewrite Hb in Hd.
    inversion Hd as [Hrows|]. rewrite <- Hrows in Hne. contradiction.
  - intros self'. apply convert_None.
Qed.

Lemma no_rows_no_document_witness :
  buildings_data new_converter = []
  /\ load_excel_data (passport zero_id_cells) new_converter = Some (true, new_converter)
  /\ convert_to_api_json "20260101_000000" new_converter = Ok None.
Proof.
  split; [reflexivity|]. split; [vm_compute; reflexivity|].
  exact (proj1 (no_rows_no_document "20260101_000000" new_converter eq_refl)).
Defined.

(** ** Field cleanup *)

(** C3: for every field of the column map, a cell holding a text is stored
    trimmed at both ends, except for [building_type], whose text is stored
    character for character and reaches [facilityType] unchanged; an empty
    cell is stored as the empty text for the six text fields of line 107
    and as 0 for every other field. (A trimmed text in a numeric field is
    then parsed: that is the next claim.) *)
Theorem field_cleanup ws r f col s :
  In (f, col) column_map ->
  (cell_value ws col r = VStr s ->
     extract_row ws r !! f =
       Some (VStr (if String.eqb f "building_type" then s else PyStr.strip s))
     /\ (mem f numeric_fields = false ->
         record_of ws r !! f =
           Some (VStr (if String.eqb f "building_type" then s else PyStr.strip s))))
  /\ (cell_value ws col r = VNone ->
        record_of ws r !! f =
          Some (if mem f string_fields then VStr "" else VInt 0))
  /\ (PyStr.head_space (PyStr.strip s) = false
      /\ PyStr.last_space (PyStr.strip s) = false
      /\ exists l t, s = l +:+ PyStr.strip s +:+ t
                     /\ PyStr.all_space l = true /\ PyStr.all_space t = true)
  /\ (forall cn b t,
        map_building cn (record_of ws r) = Ok b ->
        cell_value ws "I" r = VStr t ->
        facilityType b = VStr t).
Proof.
  intros H. split; [|split; [|split]].
  - intros Hs. split.
    + rewrite (extract_row_lookup _ _ _ _ H), Hs. cbn [clean_value].
      destruct (String.eqb f "building_type"); reflexivity.
    + intros Hn. rewrite (record_of_lookup _ _ _ _ H), Hn, Hs. cbn [clean_value].
      destruct (String.eqb f "building_type"); reflexivity.
  - intros Hnone. rewrite (record_of_lookup _ _ _ _ H), Hnone. cbn [clean_value].
    each_column H; reflexivity.
  - apply strip_spec.
  - intros cn b t Hb Ht. apply map_building_inv in Hb
      as (w & bid & ft & st & zip & pc & addr & cty & sq & _ & _ & Hft & _ & _
          & _ & _ & _ & _ & _ & _ & _ & Hb & _).
    rewrite (record_of_lookup ws r "building_type" "I") in Hft
      by (unfold column_map; cbn [In]; tauto).
    rewrite Ht in Hft. cbn in Hft. congruence.
Qed.

Lemma field_cleanup_witness :
  In ("building_type", "I") column_map
  /\ cell_value (sheet_of acme_cells) "I" 5 = VStr " Office "
  /\ record_of (sheet_of acme_cells) 5 !! "building_type" = Some (VStr " Office ")
  /\ In ("customer", "B") column_map
  /\ cell_value (sheet_of acme_cells) "B" 5 = VStr " Acme "
  /\ record_of (sheet_of acme_cells) 5 !! "customer" = Some (VStr "Acme")
  /\ In ("address", "D") column_map
  /\ cell_value (sheet_of acme_cells) "D" 5 = VNone
  /\ record_of (sheet_of acme_cells) 5 !! "address" = Some (VStr "")
  /\ In ("equipment_rental_1", "AH") column_map
  /\ cell_value (sheet_of acme_cells) "AH" 6 = VNone
  /\ record_of (sheet_of acme_cells) 6 !! "equipment_rental_1" = Some (VInt 0).
Proof.
  assert (Hi : In ("building_type", "I") column_map)
    by (unfold column_map; cbn [In]; tauto).
  assert (Hb : In ("customer", "B") column_map)
    by (unfold column_map; cbn [In]; tauto).
  assert (Hd : In ("address", "D") column_map)
    by (unfold column_map; cbn [In]; tauto).
  assert (Hh : In ("equipment_rental_1", "AH") column_map)
    by (unfold column_map; cbn [In]; tauto).
  split; [exact Hi|]. split; [reflexivity|]. split.
  { exact (proj2 (proj1 (field_cleanup (sheet_of acme_cells) 5 _ _ " Office " Hi)
                    eq_refl) eq_refl). }
  split; [exact Hb|]. split; [reflexivity|]. split.
  { exact (proj2 (proj1 (field_cleanup (sheet_of acme_cells) 5 _ _ " Acme " Hb)
                    eq_refl) eq_refl). }
  split; [exact Hd|]. split; [reflexivity|]. split.
  { exact (proj1 (proj2 (field_cleanup (sheet_of acme_cells) 5 _ _ "" Hd)) eq_refl). }
  split; [exact Hh|]. split; [reflexivity|].
  exact (proj1 (proj2 (field_cleanup (sheet_of acme_cells) 6 _ _ "" Hh)) eq_refl).
Defined.

(** ** Numeric coercion *)

(** C4: for every field of the numeric list, the stored value is: for a
    text cell, the float its trimmed text parses to, or 0 when it does not
    parse, as for [abc]; 0 for an empty cell; the cell value itself
    otherwise (see [stored_numeric]). Every such field has a column, and no
    iteration of the scan raises. *)
Theorem numeric_coercion ws r f col :
  In f numeric_fields ->
  In (f, col) column_map ->
  record_of ws r !! f = Some (stored_numeric (cell_value ws col r))
  /\ (forall s x, cell_value ws col r = VStr s ->
                  PyFloat.of_string (PyStr.strip s) = Some x ->
                  record_of ws r !! f = Some (VFloat x))
  /\ (forall s, cell_value ws col r = VStr s ->
                PyFloat.of_string (PyStr.strip s) = None ->
                record_of ws r !! f = Some (VInt 0))
  /\ (Py.is_str (cell_value ws col r) = false ->
      cell_value ws col r <> VNone ->
      record_of ws r !! f = Some (cell_value ws col r))
  /\ (exists col', In (f, col') column_map)
  /\ PyFloat.of_string "abc" = None
  /\ stored_numeric (VStr "abc") = VInt 0
  /\ stored_numeric (VStr " 12.5 ") = VFloat (PyFloat.of_decimal false 125 (-1))
  /\ (forall st, exists st', loop_body ws st = Ok st').
Proof.
  intros H Hcol.
  assert (Hrec : record_of ws r !! f = Some (stored_numeric (cell_value ws col r))).
  { rewrite (record_of_lookup _ _ _ _ Hcol), (proj2 (mem_In f numeric_fields) H).
    rewrite (stored_numeric_spec f _ H). reflexivity. }
  split; [exact Hrec|]. split.
  { intros s x Hs Hx. rewrite Hrec, Hs. cbn [stored_numeric]. rewrite Hx. reflexivity. }
  split.
  { intros s Hs Hx. rewrite Hrec, Hs. cbn [stored_numeric]. rewrite Hx. reflexivity. }
  split.
  { intros Hs Hn. rewrite Hrec.
    destruct (cell_value ws col r); try reflexivity; [contradiction | discriminate]. }
  split; [apply numeric_field_column, H|].
  split; [vm_compute; reflexivity|]. split; [vm_compute; reflexivity|].
  split; [vm_compute; reflexivity|].
  intros st. exists (next_state ws st). apply loop_body_next.
Qed.

Lemma numeric_coercion_witness :
  In "total_sq_ft" numeric_fields
  /\ In ("total_sq_ft", "J") column_map
  /\ cell_value (sheet_of acme_cells) "J" 5 = VStr "abc"
  /\ record_of (sheet_of acme_cells) 5 !! "total_sq_ft" = Some (VInt 0).
Proof.
  assert (Hn : In "total_sq_ft" numeric_fields)
    by (unfold numeric_fields; cbn [In]; tauto).
  assert (Hc : In ("total_sq_ft", "J") column_map)
    by (unfold column_map; cbn [In]; tauto).
  split; [exact Hn|]. split; [exact Hc|]. split; [reflexivity|].
  exact (proj1 (proj2 (proj2
           (numeric_coercion (sheet_of acme_cells) 5 "total_sq_ft" "J" Hn Hc)))
           "abc" eq_refl eq_refl).
Defined.

(** ** Totality of the mapper on loaded data *)

Lemma zip_ok_finite v : finite_number v = true -> zip_ok v = true.
Proof.
  destruct v as [|s|z|x|b|d|t|d|d]; try discriminate; unfold zip_ok;
    cbn [Py.truthy Py.int finite_number]; intros H.
  - apply orb_true_r.
  - destruct x; try discriminate; reflexivity.
  - apply orb_true_r.
Qed.

Lemma stored_numeric_kind v :
  Py.is_str (stored_numeric v) = false
  /\ stored_numeric v <> VNone
  /\ (is_number (stored_numeric v) = true
      \/ (is_temporal v = true /\ stored_numeric v = v)).
Proof.
  destruct v as [|s|z|x|b|d|t|d|d]; cbn [stored_numeric];
    try (split; [reflexivity | split; [discriminate | left; reflexivity]]);
    try (split; [reflexivity | split; [discriminate | right; split; reflexivity]]).
  destruct (PyFloat.of_string (PyStr.strip s));
    (split; [reflexivity | split; [discriminate | left; reflexivity]]).
Qed.

Lemma record_has_key ws r f col :
  In (f, col) column_map -> has_key (record_of ws r) f = true.
Proof.
  intros H. unfold has_key. rewrite (record_of_lookup _ _ _ _ H). reflexivity.
Qed.

(** A stored record has every key the mapper reads; it can be mapped
    when its postal code and its monthly costs are finite numbers. *)
Lemma mappable_record ws r :
  finite_inputs (record_of ws r) = true -> mappable (record_of ws r) = true.
Proof.
  unfold mappable, finite_inputs, divisible_number. cbn [forallb].
  rewrite (record_has_key ws r "building_id" "C"),
    (record_has_key ws r "building_type" "I"), (record_has_key ws r "state" "F"),
    (record_has_key ws r "zip" "G"), (record_has_key ws r "address" "D"),
    (record_has_key ws r "city" "E"), (record_has_key ws r "cleanable_sq_ft" "K")
    by (unfold column_map; cbn [In]; tauto).
  cbn [andb]. intros H. apply andb_true_iff in H as [Hz Hc].
  apply andb_true_iff in Hc as [_ Hc].
  rewrite (zip_ok_finite _ Hz), Hc. reflexivity.
Qed.

Lemma mappable_records ws rows :
  forallb finite_inputs (map (record_of ws) rows) = true ->
  forallb mappable (map (record_of ws) rows) = true.
Proof.
  induction rows as [|r rows IH]; [reflexivity|].
  cbn [map forallb]. intros H. apply andb_true_iff in H as [Hr H].
  rewrite (mappable_record ws r Hr), (IH H). reflexivity.
Qed.

Lemma load_excel_data_inv wb self0 self :
  load_excel_data wb self0 = Some (true, self) ->
  exists ws,
    get_sheet wb "Janitorial Services" = Some ws
    /\ buildings_data self =
        map (record_of ws) (List.filter (accepted ws) (scan_rows ws)).
Proof.
  intros H. destruct (get_sheet wb "Janitorial Services") as [ws|] eqn:Hws.
  - destruct (load_excel_data_records wb self0 ws Hws) as (self' & Hload & Hrec).
    exists ws. split; [reflexivity|]. congruence.
  - rewrite (load_excel_data_no_sheet wb self0 Hws) in H. discriminate.
Qed.

Lemma falsy_zip_postal_code cn bd b :
  map_building cn bd = Ok b ->
  Py.truthy (Py.get bd "zip" VNone) = false ->
  postalCode (location b) = "".
Proof.
  intros Hb Hz. apply map_building_inv in Hb
    as (w & bid & ft & st & zip & pc & addr & cty & sq & _ & _ & _ & _ & Hzip
        & Hpc & _ & _ & _ & _ & _ & _ & _ & Hloc & _).
  rewrite Hloc. cbn [postalCode]. unfold Py.get in Hz. rewrite Hzip in Hz.
  unfold postal_code in Hpc. rewrite Hz in Hpc. congruence.
Qed.

(** C10, as the code has it: after a successful load every stored record
    comes from an accepted scanned row, and each of its numeric fields
    holds a value that is neither a text nor [None]: a number, unless the
    cell held a date, a time of day or a duration, which is stored as it
    is. For a record whose postal code is an integer, a boolean or a
    finite float and whose monthly costs are a float, a boolean or an
    integer in the range of a double, the mapper builds a Building:
    neither [str(int(zip))] nor the division raises; a falsy postal code
    gives the empty [postalCode]; and when every record is such, the
    mapper returns a document. *)
Theorem loaded_records_map_when_finite wb self0 self :
  load_excel_data wb self0 = Some (true, self) ->
  exists ws,
    get_sheet wb "Janitorial Services" = Some ws
    /\ Forall
         (fun bd =>
            exists r,
              In r (scan_rows ws) /\ accepted ws r = true /\ bd = record_of ws r
              /\ (forall f col,
                    In f numeric_fields -> In (f, col) column_map ->
                    exists v,
                      bd !! f = Some v /\ Py.is_str v = false /\ v <> VNone
                      /\ (is_number v = true
                          \/ (is_temporal (cell_value ws col r) = true
                              /\ v = cell_value ws col r)))
              /\ (forall cn,
                    finite_inputs bd = true -> exists b, map_building cn bd = Ok b)
              /\ (forall cn b,
                    map_building cn bd = Ok b ->
                    Py.truthy (Py.get bd "zip" VNone) = false ->
                    postalCode (location b) = ""))
         (buildings_data self)
    /\ (forall now,
          buildings_data self <> [] ->
          forallb finite_inputs (buildings_data self) = true ->
          exists d, convert_to_api_json now self = Ok (Some d)).
Proof.
  intros Hload. destruct (load_excel_data_inv _ _ _ Hload) as (ws & Hws & Hrec).
  exists ws. split; [exact Hws|]. split.
  - rewrite Hrec. apply List.Forall_forall. intros bd Hbd.
    apply in_map_iff in Hbd as (r & <- & Hr). apply filter_In in Hr as [Hr Hacc].
    exists r. split; [exact Hr|]. split; [exact Hacc|]. split; [reflexivity|].
    split; [|split].
    + intros f col Hf Hcol. exists (stored_numeric (cell_value ws col r)).
      split; [apply record_numeric; assumption|].
      apply stored_numeric_kind.
    + intros cn Hfin. apply map_building_total, mappable_record, Hfin.
    + intros cn b. apply falsy_zip_postal_code.
  - intros now Hne Hfin. apply (convert_total now self Hne).
    rewrite Hrec. apply mappable_records. rewrite <- Hrec. exact Hfin.
Qed.

Lemma loaded_records_map_when_finite_witness :
  load_excel_data (passport acme_cells) new_converter = Some (true, acme_loaded)
  /\ forallb finite_inputs (buildings_data acme_loaded) = true
  /\ exists d, convert_to_api_json "20260101_000000" acme_loaded = Ok (Some d).
Proof.
  split; [exact acme_loads|]. split; [vm_compute; reflexivity|].
  destruct (loaded_records_map_when_finite _ _ _ acme_loads) as (ws & _ & _ & H).
  apply (H "20260101_000000"); [discriminate | vm_compute; reflexivity].
Defined.

(** C10, as stated, fails: this sheet loads, its only record holds the
    float NaN as its postal code, parsed from the text [nan], and the
    mapper raises [ValueError] at [int(zip)]. *)
Lemma nan_zip_raises :
  load_excel_data (passport nan_zip_cells) new_converter = Some (true, nan_zip_loaded)
  /\ record_of (sheet_of nan_zip_cells) 4 !! "zip" = Some (VFloat S754_nan)
  /\ In "zip" numeric_fields
  /\ Py.int (VFloat S754_nan) = Raise ValueError
  /\ convert_to_api_json "20260101_000000" nan_zip_loaded = Raise ValueError.
Proof.
  split; [vm_compute; reflexivity|]. split; [vm_compute; reflexivity|].
  split; [unfold numeric_fields; cbn [In]; tauto|].
  split; [reflexivity|]. vm_compute; reflexivity.
Qed.

(** * Beyond the claims *)

(** ** The sheet and the converter *)

Lemma get_lookup (bd : gmap string value) k v dflt :
  bd !! k = Some v -> Py.get bd k dflt = v.
Proof. intros H. unfold Py.get. rewrite H. reflexivity. Qed.


Lemma load_excel_data_unfold wb self ws st :
  get_sheet wb "Janitorial Services" = Some ws ->
  scan 97 ws scan_start = Some (None, st) ->
  load_excel_data wb self =
  Some (true,
        {| buildings_data := scanned st;
           customer_info :=
             match scanned st with
             | [] => customer_info self
             | _ :: _ =>
                 {[ "customer_name" :=
                      py_or (customer_name st) (VStr "Unknown Customer") ]}
             end |}).
Proof.
  intros Hws Hs. unfold load_excel_data, load_excel_data_fuel.
  rewrite (get_sheet_mem _ _ _ Hws), Hws, Hs. reflexivity.
Qed.

(** X2: a load never adds to what an earlier load left: the stored records
    depend on the workbook only, the customer is replaced whenever a row
    is accepted and kept from before otherwise; loading the same workbook
    again changes nothing. *)
Theorem load_replaces_earlier_data wb self self1 :
  load_excel_data wb self = Some (true, self1) ->
  load_excel_data wb self1 = Some (true, self1)
  /\ (forall other,
        exists other1,
          load_excel_data wb other = Some (true, other1)
          /\ buildings_data other1 = buildings_data self1
          /\ (buildings_data self1 <> [] ->
              customer_info other1 = customer_info self1)
          /\ (buildings_data self1 = [] ->
              customer_info other1 = customer_info other)).
Proof.
  intros H. destruct (load_excel_data_inv _ _ _ H) as (ws & Hws & _).
  destruct (scan_result ws) as (st & Hs & _).
  rewrite (load_excel_data_unfold wb self ws st Hws Hs) in H.
  injection H as <-. split.
  - rewrite (load_excel_data_unfold wb _ ws st Hws Hs). cbn [buildings_data customer_info].
    destruct (scanned st); reflexivity.
  - intros other. eexists. split; [apply (load_excel_data_unfold wb other ws st Hws Hs)|].
    cbn [buildings_data customer_info].
    split; [reflexivity|]. destruct (scanned st); split; intros; congruence.
Qed.

Lemma load_replaces_earlier_data_witness :
  load_excel_data (passport acme_cells) new_converter = Some (true, acme_loaded)
  /\ load_excel_data (passport acme_cells) acme_loaded = Some (true, acme_loaded)
  /\ exists other1,
       load_excel_data (passport acme_cells) nan_zip_loaded = Some (true, other1)
       /\ buildings_data other1 = buildings_data acme_loaded.
Proof.
  split; [exact acme_loads|].
  destruct (load_replaces_earlier_data _ _ _ acme_loads) as [H1 H2].
  split; [exact H1|].
  destruct (H2 nan_zip_loaded) as (o & Ho & Hb & _). exists o. split; assumption.
Defined.

(** ** The customer *)

Lemma clean_customer v : clean_value "customer" v = stored_text v.
Proof. destruct v; reflexivity. Qed.

Lemma accepted_customer ws r :
  accepted ws r = true ->
  stored_text (cell_value ws "B" r) <> VNone
  /\ Py.truthy (cell_value ws "B" r) = true.
Proof.
  intros H. apply accepted_spec in H as (Hb & _). split; [|exact Hb].
  destruct (cell_value ws "B" r); discriminate.
Qed.

Lemma captured_customer_step ws st rows :
  captured_customer ws (customer_name (next_state ws st)) rows
  = captured_customer ws (customer_name st) (row st :: rows).
Proof.
  unfold next_state, captured_customer, first_customer. cbn [List.filter].
  destruct (accepted ws (row st)) eqn:Hacc; cbn [customer_name skip];
    [|reflexivity].
  rewrite clean_customer.
  destruct (accepted_customer ws (row st) Hacc) as [Hn _].
  destruct (customer_name st); try reflexivity.
  destruct (stored_text (cell_value ws "B" (row st))); try reflexivity.
  contradiction.
Qed.

Lemma scan_customer ws (n : nat) : forall (fuel : nat) st,
  Z.of_nat n = Z.max 0 (Z.min (max_row ws) 100 + 1 - row st) ->
  (n <= fuel)%nat ->
  exists st',
    scan fuel ws st = Some (None, st')
    /\ customer_name st' =
        captured_customer ws (customer_name st) (seqZ (row st) (Z.of_nat n)).
Proof.
  induction n as [|n IH]; intros fuel st Hn Hfuel.
  - exists st. split.
    + apply scan_exit. unfold loop_cond. lia.
    + rewrite seqZ_nil by lia. unfold captured_customer, first_customer.
      cbn [List.filter]. destruct (customer_name st); reflexivity.
  - destruct fuel as [|fuel]; [lia|].
    assert (Hc : loop_cond ws st = true) by (unfold loop_cond; lia).
    cbn [scan]. rewrite Hc, loop_body_next.
    destruct (IH fuel (next_state ws st)) as (st' & Hs & Hcn).
    { rewrite next_state_row. lia. }
    { lia. }
    exists st'. split; [exact Hs|].
    rewrite Hcn, next_state_row, captured_customer_step.
    rewrite (seqZ_cons (row st) (Z.of_nat (S n))) by lia.
    replace (Z.pred (Z.of_nat (S n))) with (Z.of_nat n) by lia.
    replace (Z.succ (row st)) with (row st + 1) by lia.
    reflexivity.
Qed.

Lemma scan_result_customer ws :
  exists st,
    scan 97 ws scan_start = Some (None, st)
    /\ scanned st = map (record_of ws) (List.filter (accepted ws) (scan_rows ws))
    /\ customer_name st = first_customer ws (scan_rows ws).
Proof.
  destruct (scan_result ws) as (st & Hs & _ & Hsc).
  destruct (scan_customer ws (Z.to_nat (Z.min (max_row ws) 100 - 3)) 97 scan_start)
    as (st' & Hs' & Hcn).
  { cbn [row scan_start]. lia. }
  { lia. }
  rewrite Hs in Hs'. injection Hs' as <-.
  exists st. split; [exact Hs|]. split; [exact Hsc|].
  rewrite Hcn. cbn [row customer_name scan_start captured_customer].
  unfold scan_rows. rewrite (seqZ_max 4 (Z.min (max_row ws) 100 - 3)).
  do 2 f_equal. lia.
Qed.

(** X3: when a row is accepted, the customer of the deal is the customer
    of the first accepted row as stored (a text trimmed), whatever the
    later rows hold; a text that is blank once trimmed gives "Unknown
    Customer". The customer is then never empty, and it is the one in
    [customerRecordId]. *)
Theorem customer_from_first_accepted_row wb self self' ws r rest :
  get_sheet wb "Janitorial Services" = Some ws ->
  List.filter (accepted ws) (scan_rows ws) = r :: rest ->
  load_excel_data wb self = Some (true, self') ->
  let name := py_or (stored_text (cell_value ws "B" r)) (VStr "Unknown Customer") in
  customer_info self' = {[ "customer_name" := name ]}
  /\ Py.truthy name = true
  /\ (forall s, cell_value ws "B" r = VStr s ->
                name = VStr (if PyStr.is_empty (PyStr.strip s)
                             then "Unknown Customer" else PyStr.strip s))
  /\ (forall now d,
        convert_to_api_json now self' = Ok (Some d) ->
        customerRecordId d = "CUST_" +:+ Py.str name
        /\ dealRecordId d = "DEAL_" +:+ Py.str name +:+ "_" +:+ now).
Proof.
  intros Hws Hrows Hload name.
  destruct (scan_result_customer ws) as (st & Hs & Hsc & Hcn).
  rewrite (load_excel_data_unfold wb self ws st Hws Hs) in Hload.
  injection Hload as <-.
  assert (Hname : customer_name st = stored_text (cell_value ws "B" r)).
  { rewrite Hcn. unfold first_customer. rewrite Hrows. reflexivity. }
  assert (Hinfo : customer_info
                    {| buildings_data := scanned st;
                       customer_info :=
                         match scanned st with
                         | [] => customer_info self
                         | _ :: _ =>
                             {[ "customer_name" :=
                                  py_or (customer_name st) (VStr "Unknown Customer") ]}
                         end |} = {[ "customer_name" := name ]}).
  { cbn [customer_info]. rewrite Hsc, Hrows, Hname. reflexivity. }
  split; [exact Hinfo|]. split; [|split].
  - unfold name, py_or.
    destruct (Py.truthy (stored_text (cell_value ws "B" r))) eqn:E;
      [exact E | reflexivity].
  - intros s Hcell. unfold name, py_or. rewrite Hcell. cbn [stored_text Py.truthy].
    destruct (PyStr.is_empty (PyStr.strip s)); reflexivity.
  - intros now d Hd. unfold convert_to_api_json in Hd.
    rewrite Hinfo in Hd. cbn [buildings_data] in Hd.
    destruct (scanned st) as [|bd rows]; [discriminate|].
    cbv zeta in Hd.
    rewrite (get_lookup _ "customer_name" name) in Hd
      by apply lookup_singleton_eq.
    bind_step Hd bs Ebs. injection Hd as <-. split; reflexivity.
Qed.

Lemma customer_from_first_accepted_row_witness :
  get_sheet (passport acme_cells) "Janitorial Services" = Some (sheet_of acme_cells)
  /\ List.filter (accepted (sheet_of acme_cells)) (scan_rows (sheet_of acme_cells))
     = [4; 5]%list
  /\ load_excel_data (passport acme_cells) new_converter = Some (true, acme_loaded)
  /\ customer_info acme_loaded = {[ "customer_name" := VStr "Acme" ]}.
Proof.
  split; [reflexivity|]. split; [vm_compute; reflexivity|].
  split; [exact acme_loads|].
  exact (proj1 (customer_from_first_accepted_row (passport acme_cells) new_converter
                  acme_loaded (sheet_of acme_cells) 4 [5]%list eq_refl
                  ltac:(vm_compute; reflexivity) acme_loads)).
Defined.

(** ** The keys of a stored record *)

Lemma last_column_Some l g c :
  last_column l g = Some c -> In (g, c) l.
Proof.
  unfold last_column. destruct (find _ (rev l)) as [[f c']|] eqn:E; [|discriminate].
  cbn. intros [= <-]. apply find_some in E as [Hin Heq]. cbn in Heq.
  apply String.eqb_eq in Heq as ->. apply in_rev. exact Hin.
Qed.

Lemma last_column_In l g :
  In g (map fst l) -> exists c, last_column l g = Some c.
Proof.
  intros Hin. apply in_map_iff in Hin as ([f c] & Hf & Hin). cbn in Hf. subst f.
  unfold last_column. destruct (find _ (rev l)) as [[f c']|] eqn:E.
  - exists c'. reflexivity.
  - exfalso. apply in_rev in Hin. apply (find_none _ _ E) in Hin.
    cbn in Hin. rewrite String.eqb_refl in Hin. discriminate.
Qed.

Lemma extract_row_keys ws r g :
  is_Some (extract_row ws r !! g) <-> In g field_names.
Proof.
  unfold extract_row, field_names.
  rewrite (fold_insert_lookup (fun f c => clean_value f (cell_value ws c r))).
  split.
  - destruct (last_column column_map g) as [c|] eqn:E.
    + intros _. apply last_column_Some in E. apply in_map_iff.
      exists (g, c). split; [reflexivity | exact E].
    + rewrite lookup_empty. intros [v Hv]. discriminate.
  - intros Hin. destruct (last_column_In _ _ Hin) as [c ->]. eauto.
Qed.

Lemma record_of_keys ws r g :
  is_Some (record_of ws r !! g) <-> In g field_names.
Proof.
  rewrite <- extract_row_keys. unfold record_of.
  rewrite coerce_numeric_lookup.
  destruct (mem g numeric_fields); [|reflexivity].
  rewrite fmap_is_Some. reflexivity.
Qed.

(** X4: every stored record has the same 37 keys, the fields of the
    column map, whatever the row holds; so on a stored record no subscript
    of the mapper raises [KeyError], and no default of a [get] with one of
    these fields is ever used. *)
Theorem stored_record_keys ws r :
  (forall g, is_Some (record_of ws r !! g) <-> In g field_names)
  /\ dom (record_of ws r) = list_to_set field_names
  /\ size (record_of ws r) = 37%nat
  /\ (forall f, In f field_names ->
        (exists v, Py.getitem (record_of ws r) f = Ok v)
        /\ forall d1 d2, Py.get (record_of ws r) f d1 = Py.get (record_of ws r) f d2)
  /\ (forall g, ~ In g field_names -> Py.getitem (record_of ws r) g = Raise KeyError).
Proof.
  assert (Hdom : dom (record_of ws r) = list_to_set field_names).
  { apply set_eq. intros g.
    rewrite elem_of_dom, elem_of_list_to_set, list_elem_of_In.
    apply record_of_keys. }
  split; [apply record_of_keys|]. split; [exact Hdom|]. split; [|split].
  - rewrite <- size_dom, Hdom. vm_compute. reflexivity.
  - intros f Hf. apply (record_of_keys ws r) in Hf as [v Hv]. split.
    + exists v. apply getitem_Ok. exact Hv.
    + intros d1 d2. rewrite !(get_lookup _ _ v) by exact Hv. reflexivity.
  - intros g Hg. unfold Py.getitem.
    destruct (record_of ws r !! g) as [v|] eqn:E; [|reflexivity].
    exfalso. apply Hg. apply (record_of_keys ws r). eauto.
Qed.

(** ** The exceptions of the mapper *)

Lemma truediv_error v :
  match costs_error v with
  | Some e => Py.truediv v weeks_per_month = Raise e
  | None => exists w, Py.truediv v weeks_per_month = Ok w
  end.
Proof.
  destruct v as [|s|z|x|b|d|t|d|d]; cbn [costs_error Py.truediv]; try reflexivity.
  - unfold Py.float_of_int. destruct (PyFloat.is_finite (PyFloat.of_Z z));
      cbn [mbind result_bind]; [eexists|]; reflexivity.
  - eexists. reflexivity.
  - destruct b; eexists; reflexivity.
  - destruct (Py.timedelta_truediv d weeks_per_month) as [q|e];
      cbn [mbind result_bind]; [eexists|]; reflexivity.
Qed.

Lemma weeks_per_month_ratio :
  Py.as_integer_ratio weeks_per_month = Ok (2437573298314281, 562949953421312).
Proof. vm_compute. reflexivity. Qed.

(** A duration divided by [4.33] is a duration, unless its days leave the
    range of a [timedelta]. *)
Lemma timedelta_truediv_error d e :
  Py.timedelta_truediv d weeks_per_month = Raise e -> e = OverflowError.
Proof.
  unfold Py.timedelta_truediv. rewrite weeks_per_month_ratio.
  cbn [mbind result_bind fst snd Z.eqb]. unfold Py.microseconds_to_delta.
  match goal with |- context [if ?c then _ else _] => destruct c end;
    [discriminate | congruence].
Qed.

Lemma postal_code_error v :
  Py.is_str v = false ->
  match zip_error v with
  | Some e => postal_code v = Raise e
  | None => exists pc, postal_code v = Ok pc
  end.
Proof.
  intros Hs. destruct v as [|s|z|x|b|d|t|d|d]; try discriminate;
    unfold postal_code; cbn [zip_error Py.truthy Py.int].
  - eexists. reflexivity.
  - destruct (negb (z =? 0)); eexists; reflexivity.
  - destruct x as [sx|sx| |sx m e]; cbn; try reflexivity; eexists; reflexivity.
  - destruct b; eexists; reflexivity.
  - reflexivity.
  - reflexivity.
  - destruct (negb ((td_days d =? 0) && (td_seconds d =? 0)
                    && (td_microseconds d =? 0)));
      [reflexivity | eexists; reflexivity].
  - reflexivity.
Qed.

Lemma map_building_outcome cn bd :
  complete_record bd = true ->
  match record_error bd with
  | Some e => map_building cn bd = Raise e
  | None => exists b, map_building cn bd = Ok b
  end.
Proof.
  unfold complete_record. cbn [forallb]. rewrite !andb_true_iff.
  intros [(Hid & Hft & Hst & Hzip & Haddr & Hcty & Hsq & _) Hz].
  apply has_key_true in Hid as [bid Hid], Hft as [ft Hft], Hst as [st Hst],
    Hzip as [zip Hzip], Haddr as [addr Haddr], Hcty as [cty Hcty],
    Hsq as [sq Hsq].
  rewrite (get_lookup _ _ _ _ Hzip) in Hz. apply negb_true_iff in Hz.
  unfold record_error. rewrite (get_lookup _ "zip" _ _ Hzip).
  unfold map_building. rewrite !equipment_slot_spec. cbn [mbind result_bind].
  rewrite override_spec. cbn [mbind result_bind].
  rewrite weekly_additional_costs_spec.
  pose proof (truediv_error (Py.get bd "additional_costs" (VInt 0))) as Hc.
  destruct (costs_error (Py.get bd "additional_costs" (VInt 0))) as [e|].
  - rewrite Hc. reflexivity.
  - destruct Hc as [w ->]. cbn [mbind result_bind].
    unfold Py.getitem. rewrite Hid, Hft, Hst, Hzip, Haddr, Hcty, Hsq.
    cbn [mbind result_bind].
    pose proof (postal_code_error zip Hz) as Hp.
    destruct (zip_error zip) as [e|].
    + rewrite Hp. reflexivity.
    + destruct Hp as [pc ->]. cbn [mbind result_bind]. eexists. reflexivity.
Qed.

Lemma map_buildings_outcome cn rows :
  forallb complete_record rows = true ->
  match first_error rows with
  | Some e => map_buildings cn rows = Raise e
  | None => exists bs, map_buildings cn rows = Ok bs
  end.
Proof.
  induction rows as [|bd rows IH]; cbn [forallb first_error map_buildings].
  - intros _. eexists. reflexivity.
  - rewrite andb_true_iff. intros [Hbd Hrows].
    pose proof (map_building_outcome cn bd Hbd) as Hb.
    destruct (record_error bd) as [e|].
    + rewrite Hb. reflexivity.
    + destruct Hb as [b ->]. cbn [mbind result_bind].
      specialize (IH Hrows). destruct (first_error rows) as [e|].
      * rewrite IH. reflexivity.
      * destruct IH as [bs ->]. eexists. reflexivity.
Qed.

Lemma complete_record_of ws r : complete_record (record_of ws r) = true.
Proof.
  unfold complete_record. cbn [forallb].
  rewrite (record_has_key ws r "building_id" "C"),
    (record_has_key ws r "building_type" "I"), (record_has_key ws r "state" "F"),
    (record_has_key ws r "zip" "G"), (record_has_key ws r "address" "D"),
    (record_has_key ws r "city" "E"), (record_has_key ws r "cleanable_sq_ft" "K")
    by (unfold column_map; cbn [In]; tauto).
  cbn [andb].
  rewrite (get_lookup _ "zip" (stored_numeric (cell_value ws "G" r)))
    by (apply record_numeric; unfold numeric_fields, column_map; cbn [In]; tauto).
  destruct (stored_numeric_kind (cell_value ws "G" r)) as (-> & _). reflexivity.
Qed.

Lemma complete_records ws rows :
  forallb complete_record (map (record_of ws) rows) = true.
Proof.
  induction rows as [|r rows IH]; [reflexivity|].
  cbn [map forallb]. rewrite complete_record_of, IH. reflexivity.
Qed.

Lemma first_error_kind rows e :
  first_error rows = Some e ->
  e = TypeError \/ e = ValueError \/ e = OverflowError.
Proof.
  induction rows as [|bd rows IH]; cbn [first_error]; [discriminate|].
  destruct (record_error bd) as [e'|] eqn:E; [|exact IH].
  intros [= <-]. unfold record_error in E.
  assert (Hzip : forall v, zip_error v = Some e' ->
                 e' = TypeError \/ e' = ValueError \/ e' = OverflowError).
  { intros v Hv. destruct v as [|s'|z'|x'|b'|d'|t'|d'|d']; cbn [zip_error] in Hv;
      try discriminate; try (injection Hv as <-; tauto).
    - destruct x'; try discriminate; injection Hv as <-; tauto.
    - destruct (Py.truthy (VTimedelta d')); [injection Hv as <-; tauto | discriminate]. }
  destruct (Py.get bd "additional_costs" (VInt 0)) as [|s|z|x|b|d|t|d|d];
    cbn [costs_error] in E;
    try (injection E as <-; tauto);
    try (apply Hzip in E; exact E).
  - destruct (PyFloat.is_finite (PyFloat.of_Z z));
      [apply Hzip in E; exact E | injection E as <-; tauto].
  - destruct (Py.timedelta_truediv d weeks_per_month) as [q|e0] eqn:Hq;
      [apply Hzip in E; exact E|].
    injection E as <-. apply timedelta_truediv_error in Hq. tauto.
Qed.

(** X5: on loaded data the mapper ends in one of three ways, decided by
    the records alone: [None] when there is none; the exception of the
    first record whose monthly costs cannot be divided (a date, an integer
    beyond the doubles) or whose postal code cannot be truncated (NaN, an
    infinity, a date), the costs being looked at first, and no document
    at all; a document otherwise. The exception is a [TypeError], a
    [ValueError] or an [OverflowError], never a [KeyError] or a
    [ZeroDivisionError]. *)
Theorem mapper_outcome_on_loaded_data wb self0 self now :
  load_excel_data wb self0 = Some (true, self) ->
  match first_error (buildings_data self) with
  | Some e =>
      convert_to_api_json now self = Raise e
      /\ (e = TypeError \/ e = ValueError \/ e = OverflowError)
  | None =>
      match buildings_data self with
      | [] => convert_to_api_json now self = Ok None
      | _ :: _ => exists d, convert_to_api_json now self = Ok (Some d)
      end
  end.
Proof.
  intros Hload. destruct (load_excel_data_inv _ _ _ Hload) as (ws & _ & Hrec).
  pose proof (complete_records ws (List.filter (accepted ws) (scan_rows ws))) as Hc.
  rewrite <- Hrec in Hc. clear Hrec.
  pose proof (map_buildings_outcome
                (Py.get (customer_info self) "customer_name" (VStr "Unknown Customer"))
                _ Hc) as Hout.
  pose proof (first_error_kind (buildings_data self)) as Hkind.
  unfold convert_to_api_json.
  destruct (buildings_data self) as [|bd rows] eqn:E.
  - reflexivity.
  - cbv zeta. destruct (first_error (bd :: rows)) as [e|].
    + split; [rewrite Hout; reflexivity | apply Hkind; reflexivity].
    + destruct Hout as [bs ->]. eexists. reflexivity.
Qed.

Lemma mapper_outcome_on_loaded_data_witness :
  load_excel_data (passport nan_zip_cells) new_converter = Some (true, nan_zip_loaded)
  /\ first_error (buildings_data nan_zip_loaded) = Some ValueError
  /\ convert_to_api_json "20260101_000000" nan_zip_loaded = Raise ValueError.
Proof.
  assert (Hl : load_excel_data (passport nan_zip_cells) new_converter
               = Some (true, nan_zip_loaded)) by (vm_compute; reflexivity).
  assert (He : first_error (buildings_data nan_zip_loaded) = Some ValueError)
    by (vm_compute; reflexivity).
  split; [exact Hl|]. split; [exact He|].
  pose proof (mapper_outcome_on_loaded_data _ _ _ "20260101_000000" Hl) as H.
  rewrite He in H. exact (proj1 H).
Defined.

(** ** Identifiers *)

Lemma Forall2_Forall_right {A B} (P : A -> B -> Prop) (Q : B -> Prop) l k :
  Forall2 P l k -> (forall a b, P a b -> Q b) -> Forall Q k.
Proof. induction 1; intros HPQ; constructor; eauto. Qed.

(** X6: in a returned document the identifiers of a Building are built on
    one text, its [buildingId]: the record id is [BLDG_] and the line item
    id [LINE_] before it, the name is the customer, [ - ] and it; each
    Building has exactly one service, of type [RJS] and frequency
    [weekly], whose single input repeats the cleanable square footage of
    the Building; the country is [USA]; and [customerRecordId] is [CUST_]
    before the same customer. *)
Theorem building_identifiers_agree now self d :
  convert_to_api_json now self = Ok (Some d) ->
  let customer :=
    Py.str (Py.get (customer_info self) "customer_name" (VStr "Unknown Customer")) in
  customerRecordId d = "CUST_" +:+ customer
  /\ Forall
       (fun b =>
          buildingRecordId b = "BLDG_" +:+ buildingId b
          /\ buildingName b = customer +:+ " - " +:+ buildingId b
          /\ country (location b) = "USA"
          /\ exists svc,
               services b = [svc]
               /\ lineItemObjectId svc = "LINE_" +:+ buildingId b
               /\ serviceType svc = "RJS"
               /\ serviceFrequency svc = "weekly"
               /\ inputs svc =
                  [ {| itemName := "cleanableSquareFootage";
                       itemValue := cleanableSquareFootage (buildingDetails b) |} ])
       (buildings d).
Proof.
  intros Hd customer. split.
  - unfold convert_to_api_json in Hd.
    destruct (buildings_data self); [discriminate|]. cbv zeta in Hd.
    bind_step Hd bs Ebs. injection Hd as <-. reflexivity.
  - apply convert_Some in Hd as [_ Hd].
    eapply Forall2_Forall_right; [exact Hd|].
    intros bd b Hb. cbv beta in Hb. apply map_building_inv in Hb
      as (w & bid & ft & st & zip & pc & addr & cty & sq & _ & _ & _ & _ & _
          & _ & _ & _ & _ & Hid & Hrid & Hname & _ & Hloc & Hdet & svc & Hsvc
          & Hline & Hty & Hfreq & _ & Hin & _).
    rewrite Hrid, Hname, Hid, Hloc, Hdet. cbn [country cleanableSquareFootage].
    split; [reflexivity|]. split; [reflexivity|]. split; [reflexivity|].
    exists svc. rewrite Hline, Hty, Hfreq, Hin. split; [exact Hsvc|].
    repeat split; reflexivity.
Qed.

Lemma building_identifiers_agree_witness :
  convert_to_api_json "20260101_000000" acme_loaded = Ok (Some acme_deal)
  /\ customerRecordId acme_deal = "CUST_Acme"
  /\ map (fun b => (buildingRecordId b, buildingName b)) (buildings acme_deal)
     = [ ("BLDG_B1", "Acme - B1"); ("BLDG_B2", "Acme - B2") ]%list.
Proof.
  split; [exact acme_converts|].
  destruct (building_identifiers_agree _ _ _ acme_converts) as [Hc _].
  split; [rewrite Hc; vm_compute; reflexivity | vm_compute; reflexivity].
Defined.

(** X7: the time of the conversion shows in [dealRecordId] only: at
    another time the mapper returns the same Buildings and the same
    [customerRecordId], raises the same exception, or returns [None]
    again; [dealRecordId] is [DEAL_], the customer, [_] and the time. *)
Theorem timestamp_only_in_deal_id now now' self :
  (forall d,
     convert_to_api_json now self = Ok (Some d) ->
     dealRecordId d =
       "DEAL_" +:+
       Py.str (Py.get (customer_info self) "customer_name" (VStr "Unknown Customer"))
       +:+ "_" +:+ now
     /\ exists d',
          convert_to_api_json now' self = Ok (Some d')
          /\ buildings d' = buildings d
          /\ customerRecordId d' = customerRecordId d)
  /\ (forall e,
        convert_to_api_json now self = Raise e ->
        convert_to_api_json now' self = Raise e)
  /\ (convert_to_api_json now self = Ok None ->
      convert_to_api_json now' self = Ok None).
Proof.
  unfold convert_to_api_json.
  destruct (buildings_data self) as [|bd rows].
  - split; [intros d H; discriminate|]. split; [intros e H; discriminate | reflexivity].
  - cbv zeta.
    destruct (map_buildings _ (bd :: rows)) as [bs|e0]; cbn [mbind result_bind].
    + split; [|split; [intros e H; discriminate | intros H; discriminate]].
      intros d [= <-]. split; [reflexivity|]. eexists. split; [reflexivity|].
      split; reflexivity.
    + split; [intros d H; discriminate|]. split; [intros e H; exact H|].
      intros H; discriminate.
Qed.

(** ** From the cells of a row to its Building *)

Ltac in_fields := unfold numeric_fields, column_map; cbn [In]; tauto.

Ltac all_in_fields :=
  repeat (apply List.Forall_cons; [in_fields|]); apply List.Forall_nil.

Lemma get_numeric ws r f col dflt :
  In f numeric_fields -> In (f, col) column_map ->
  Py.get (record_of ws r) f dflt = stored_numeric (cell_value ws col r).
Proof. intros H Hc. apply get_lookup, record_numeric; assumption. Qed.

Lemma record_text ws r f col :
  In f ["customer"; "building_id"; "address"; "city"; "state"] ->
  In (f, col) column_map ->
  record_of ws r !! f = Some (stored_text (cell_value ws col r)).
Proof.
  intros Hf Hc. rewrite (record_of_lookup _ _ _ _ Hc). cbn [In] in Hf.
  repeat (destruct Hf as [<-|Hf];
          [destruct (cell_value ws col r); reflexivity|]).
  contradiction.
Qed.

Lemma record_other ws r f col :
  In f ["equipment_rental_1"; "contract_terms_1";
        "equipment_rental_2"; "contract_terms_2"] ->
  In (f, col) column_map ->
  record_of ws r !! f = Some (stored_other (cell_value ws col r)).
Proof.
  intros Hf Hc. rewrite (record_of_lookup _ _ _ _ Hc). cbn [In] in Hf.
  repeat (destruct Hf as [<-|Hf];
          [destruct (cell_value ws col r); reflexivity|]).
  contradiction.
Qed.

Lemma record_building_type ws r :
  record_of ws r !! "building_type" = Some (stored_verbatim (cell_value ws "I" r)).
Proof.
  rewrite (record_of_lookup ws r "building_type" "I") by in_fields.
  destruct (cell_value ws "I" r); reflexivity.
Qed.

Lemma week_of_record ws r su mo tu we th fr sa csu cmo ctu cwe cth cfr csa :
  Forall (fun f => In f numeric_fields) [su; mo; tu; we; th; fr; sa] ->
  Forall (fun p => In p column_map)
    [(su, csu); (mo, cmo); (tu, ctu); (we, cwe); (th, cth); (fr, cfr); (sa, csa)] ->
  week_of (record_of ws r) su mo tu we th fr sa
  = week_of_cells ws r csu cmo ctu cwe cth cfr csa.
Proof.
  intros Hn Hc. unfold week_of, week_of_cells.
  repeat match goal with
         | H : Forall _ (_ :: _) |- _ => inversion H; subst; clear H
         end.
  rewrite (get_numeric ws r su csu), (get_numeric ws r mo cmo),
    (get_numeric ws r tu ctu), (get_numeric ws r we cwe),
    (get_numeric ws r th cth), (get_numeric ws r fr cfr),
    (get_numeric ws r sa csa) by assumption.
  reflexivity.
Qed.

(** X8: for a Building built from a stored record, the three weeks of its
    service come from fixed cells of the row, each as the loader stores a
    numeric cell: the schedule from columns R to X, the day-porter hours
    from AQ to AW, the supervisor hours from AZ to BF, Sunday first; the
    day-porter wage adjustment comes from AO, and the productivity
    override is the stored value of M when that is truthy and the empty
    object otherwise. *)
Theorem hours_from_cells ws r cn b :
  map_building cn (record_of ws r) = Ok b ->
  exists svc,
    services b = [svc]
    /\ schedule svc = week_of_cells ws r "R" "S" "T" "U" "V" "W" "X"
    /\ dayporterHours svc = week_of_cells ws r "AQ" "AR" "AS" "AT" "AU" "AV" "AW"
    /\ supervisorHours svc = week_of_cells ws r "AZ" "BA" "BB" "BC" "BD" "BE" "BF"
    /\ dayporterHourlyWageAdjustment svc = stored_numeric (cell_value ws "AO" r)
    /\ productivityOverride svc =
       (if Py.truthy (stored_numeric (cell_value ws "M" r))
        then Some (stored_numeric (cell_value ws "M" r)) else None).
Proof.
  intros Hb. apply map_building_inv in Hb
    as (w & bid & ft & st & zip & pc & addr & cty & sq & _ & _ & _ & _ & _
        & _ & _ & _ & _ & _ & _ & _ & _ & _ & _ & svc & Hsvc & _ & _ & _ & Hsch
        & _ & Hpo & _ & _ & Hdp & Hwage & Hsup).
  exists svc. split; [exact Hsvc|].
  rewrite Hsch, Hdp, Hsup, Hwage, Hpo.
  rewrite (week_of_record ws r "sun" "mon" "tue" "wed" "thu" "fri" "sat"
             "R" "S" "T" "U" "V" "W" "X")
    by all_in_fields.
  rewrite (week_of_record ws r "dp_sun" "dp_mon" "dp_tue" "dp_wed" "dp_thu"
             "dp_fri" "dp_sat" "AQ" "AR" "AS" "AT" "AU" "AV" "AW")
    by all_in_fields.
  rewrite (week_of_record ws r "sup_sun" "sup_mon" "sup_tue" "sup_wed" "sup_thu"
             "sup_fri" "sup_sat" "AZ" "BA" "BB" "BC" "BD" "BE" "BF")
    by all_in_fields.
  rewrite (get_numeric ws r "wage_adjustment" "AO") by in_fields.
  rewrite !(get_numeric ws r "alternate_productivity" "M") by in_fields.
  repeat split; reflexivity.
Qed.

Lemma hours_from_cells_witness :
  exists b,
    map_building (VStr "Acme") (record_of (sheet_of acme_cells) 4) = Ok b
    /\ exists svc,
         services b = [svc]
         /\ cell_value (sheet_of acme_cells) "T" 4 = VInt 2
         /\ tuesday (schedule svc) = VInt 2.
Proof.
  destruct (map_building (VStr "Acme") (record_of (sheet_of acme_cells) 4))
    as [b|e] eqn:E; [|vm_compute in E; discriminate].
  exists b. split; [reflexivity|].
  destruct (hours_from_cells _ _ _ _ E) as (svc & Hsvc & Hsch & _).
  exists svc. split; [exact Hsvc|]. split; [reflexivity|].
  rewrite Hsch. vm_compute. reflexivity.
Defined.

(** X9: for a Building built from a stored record, identity, place and
    size come from fixed cells of the row: [buildingId] is the text form
    of cell C, trimmed when it is a text; state, address and city are
    cells F, D and E, trimmed when texts and empty when missing;
    [facilityType] is cell I as it is; the postal code is rendered from
    cell G as the loader stores a numeric cell; the total and cleanable
    square footage are cells J and K stored likewise. *)
Theorem place_and_size_from_cells ws r cn b :
  map_building cn (record_of ws r) = Ok b ->
  buildingId b = Py.str (stored_text (cell_value ws "C" r))
  /\ facilityType b = stored_verbatim (cell_value ws "I" r)
  /\ loc_state (location b) = stored_text (cell_value ws "F" r)
  /\ loc_address (location b) = stored_text (cell_value ws "D" r)
  /\ loc_city (location b) = stored_text (cell_value ws "E" r)
  /\ postal_code (stored_numeric (cell_value ws "G" r)) = Ok (postalCode (location b))
  /\ totalSquareFootage (buildingDetails b) = stored_numeric (cell_value ws "J" r)
  /\ cleanableSquareFootage (buildingDetails b) = stored_numeric (cell_value ws "K" r).
Proof.
  intros Hb. apply map_building_inv in Hb
    as (w & bid & ft & st & zip & pc & addr & cty & sq & _ & Hid & Hft & Hst
        & Hzip & Hpc & Haddr & Hcty & Hsq & Hbid & _ & _ & Hfty & Hloc & Hdet & _).
  rewrite (record_text ws r "building_id" "C") in Hid
    by (try in_fields; cbn [In]; tauto).
  rewrite record_building_type in Hft.
  rewrite (record_text ws r "state" "F") in Hst by (try in_fields; cbn [In]; tauto).
  rewrite (record_text ws r "address" "D") in Haddr
    by (try in_fields; cbn [In]; tauto).
  rewrite (record_text ws r "city" "E") in Hcty by (try in_fields; cbn [In]; tauto).
  rewrite (record_numeric ws r "zip" "G") in Hzip by in_fields.
  rewrite (record_numeric ws r "cleanable_sq_ft" "K") in Hsq by in_fields.
  injection Hid as <-. injection Hft as <-. injection Hst as <-.
  injection Haddr as <-. injection Hcty as <-. injection Hzip as <-.
  injection Hsq as <-.
  rewrite Hbid, Hfty, Hloc, Hdet.
  cbn [loc_state loc_address loc_city postalCode totalSquareFootage
       cleanableSquareFootage].
  rewrite (get_numeric ws r "total_sq_ft" "J") by in_fields.
  repeat split; try reflexivity. exact Hpc.
Qed.

Lemma place_and_size_from_cells_witness :
  exists b,
    map_building (VStr "Acme") (record_of (sheet_of acme_cells) 5) = Ok b
    /\ cell_value (sheet_of acme_cells) "C" 5 = VStr " B2 "
    /\ buildingId b = "B2"
    /\ cell_value (sheet_of acme_cells) "I" 5 = VStr " Office "
    /\ facilityType b = VStr " Office "
    /\ cell_value (sheet_of acme_cells) "G" 5 = VStr " 02134 "
    /\ postalCode (location b) = "2134".
Proof.
  destruct (map_building (VStr "Acme") (record_of (sheet_of acme_cells) 5))
    as [b|e] eqn:E; [|vm_compute in E; discriminate].
  exists b. split; [reflexivity|].
  destruct (place_and_size_from_cells _ _ _ _ E) as (Hid & Hft & _ & _ & _ & Hpc & _).
  split; [reflexivity|]. split; [rewrite Hid; vm_compute; reflexivity|].
  split; [reflexivity|]. split; [rewrite Hft; reflexivity|].
  split; [reflexivity|].
  assert (H : postal_code (stored_numeric (cell_value (sheet_of acme_cells) "G" 5))
              = Ok "2134") by (vm_compute; reflexivity).
  rewrite H in Hpc. injection Hpc as <-. reflexivity.
Defined.

(** X10: for a Building built from a stored record, the equipment comes
    from cells AH and AI for the first slot and AJ and AK for the second:
    a text is trimmed before it is tested and before its term is looked
    up, so that a term given as [ 36 ] is found, and an empty or blank
    equipment cell gives no entry. *)
Theorem equipment_from_cells ws r cn b :
  map_building cn (record_of ws r) = Ok b ->
  (exists svc,
     services b = [svc]
     /\ equipment svc =
        (cell_entries (cell_value ws "AH" r) (cell_value ws "AI" r) ++
         cell_entries (cell_value ws "AJ" r) (cell_value ws "AK" r))%list)
  /\ (forall terms, cell_entries VNone terms = [])
  /\ (forall s terms,
        PyStr.is_empty (PyStr.strip s) = true -> cell_entries (VStr s) terms = [])
  /\ (forall s t,
        PyStr.is_empty (PyStr.strip s) = false ->
        cell_entries (VStr s) (VStr t) =
        [ {| equipmentType := VStr (PyStr.strip s);
             contractTerm := contract_term (VStr (PyStr.strip t)) |} ])
  /\ contract_term (stored_other (VStr " 36 ")) = "36"
  /\ contract_term (stored_other VNone) = "".
Proof.
  intros Hb. split.
  { apply map_building_inv in Hb
      as (w & bid & ft & st & zip & pc & addr & cty & sq & _ & _ & _ & _ & _
          & _ & _ & _ & _ & _ & _ & _ & _ & _ & _ & svc & Hsvc & _ & _ & _ & _
          & _ & _ & _ & Heq & _).
    exists svc. split; [exact Hsvc|]. rewrite Heq. unfold cell_entries.
    rewrite !(get_lookup _ "equipment_rental_1" _ VNone
                (record_other ws r "equipment_rental_1" "AH"
                   ltac:(cbn [In]; tauto) ltac:(in_fields))).
    rewrite !(get_lookup _ "equipment_rental_2" _ VNone
                (record_other ws r "equipment_rental_2" "AJ"
                   ltac:(cbn [In]; tauto) ltac:(in_fields))).
    rewrite (get_lookup _ "contract_terms_1" _ (VStr "")
               (record_other ws r "contract_terms_1" "AI"
                  ltac:(cbn [In]; tauto) ltac:(in_fields))).
    rewrite (get_lookup _ "contract_terms_2" _ (VStr "")
               (record_other ws r "contract_terms_2" "AK"
                  ltac:(cbn [In]; tauto) ltac:(in_fields))).
    reflexivity. }
  split; [reflexivity|]. split.
  { intros s terms Hs. unfold cell_entries. cbn [stored_other Py.truthy].
    rewrite Hs. reflexivity. }
  split.
  { intros s t Hs. unfold cell_entries. cbn [stored_other Py.truthy].
    rewrite Hs. reflexivity. }
  split; vm_compute; reflexivity.
Qed.

Lemma equipment_from_cells_witness :
  exists b,
    map_building (VStr "Acme") (record_of (sheet_of acme_cells) 5) = Ok b
    /\ exists svc,
         services b = [svc]
         /\ equipment svc =
            [ {| equipmentType := VStr "Scrubber"; contractTerm := "36" |};
              {| equipmentType := VStr "Buffer"; contractTerm := "" |} ]%list.
Proof.
  destruct (map_building (VStr "Acme") (record_of (sheet_of acme_cells) 5))
    as [b|e] eqn:E; [|vm_compute in E; discriminate].
  exists b. split; [reflexivity|].
  destruct (proj1 (equipment_from_cells _ _ _ _ E)) as (svc & Hsvc & Heq).
  exists svc. split; [exact Hsvc|]. rewrite Heq. vm_compute. reflexivity.
Defined.

(** X11: the acceptance test looks at the cleanable-square-footage cell
    before it is coerced: a row whose cell holds any non-empty text is
    accepted, and the stored footage is what the text parses to, hence 0
    when it does not parse; the Building of such a row has
    [cleanableSquareFootage] 0. *)
Theorem text_footage_is_accepted ws r s :
  Py.truthy (cell_value ws "B" r) = true ->
  Py.truthy (cell_value ws "C" r) = true ->
  PyStr.is_empty (PyStr.strip (Py.str (cell_value ws "C" r))) = false ->
  cell_value ws "K" r = VStr s ->
  s <> "" ->
  accepted ws r = true
  /\ record_of ws r !! "cleanable_sq_ft" =
     Some match PyFloat.of_string (PyStr.strip s) with
          | Some x => VFloat x
          | None => VInt 0
          end
  /\ (PyFloat.of_string (PyStr.strip s) = None ->
      forall cn b,
        map_building cn (record_of ws r) = Ok b ->
        cleanableSquareFootage (buildingDetails b) = VInt 0
        /\ exists svc,
             services b = [svc]
             /\ inputs svc = [ {| itemName := "cleanableSquareFootage";
                                  itemValue := VInt 0 |} ]).
Proof.
  intros Hb Hc Hs Hk Hne.
  assert (Hrec : record_of ws r !! "cleanable_sq_ft" =
                 Some match PyFloat.of_string (PyStr.strip s) with
                      | Some x => VFloat x
                      | None => VInt 0
                      end).
  { rewrite (record_numeric ws r "cleanable_sq_ft" "K") by in_fields.
    rewrite Hk. reflexivity. }
  split; [|split; [exact Hrec|]].
  - apply accepted_spec. rewrite Hk. cbn [Py.truthy Py.eq].
    repeat split; try assumption. destruct s; [contradiction | reflexivity].
  - intros Hparse cn b Hmb. rewrite Hparse in Hrec.
    apply map_building_inv in Hmb
      as (w & bid & ft & st & zip & pc & addr & cty & sq & _ & _ & _ & _ & _
          & _ & _ & _ & Hsq & _ & _ & _ & _ & _ & Hdet & svc & Hsvc & _ & _ & _
          & _ & Hin & _).
    rewrite Hrec in Hsq. injection Hsq as <-.
    rewrite Hdet. split; [reflexivity|]. exists svc. split; assumption.
Qed.

Lemma text_footage_is_accepted_witness :
  cell_value (sheet_of text_footage_cells) "K" 4 = VStr "n/a"
  /\ accepted (sheet_of text_footage_cells) 4 = true
  /\ record_of (sheet_of text_footage_cells) 4 !! "cleanable_sq_ft" = Some (VInt 0).
Proof.
  split; [reflexivity|].
  destruct (text_footage_is_accepted (sheet_of text_footage_cells) 4 "n/a"
              eq_refl eq_refl eq_refl eq_refl ltac:(discriminate))
    as (Hacc & Hrec & _).
  split; [exact Hacc | exact Hrec].
Defined.

(** ** The statistics of [main] *)

Lemma list_sum_cons x l : list_sum (x :: l) = (x + list_sum l)%nat.
Proof. reflexivity. Qed.

Lemma slot_entries_length bd rental terms :
  (length (slot_entries bd rental terms) <= 1)%nat.
Proof. unfold slot_entries. destruct (Py.truthy _); cbn; lia. Qed.

Lemma building_counts cn bd b :
  map_building cn bd = Ok b ->
  length (services b) = 1%nat
  /\ list_sum (map (fun svc => length (equipment svc)) (services b)) =
     (length (slot_entries bd "equipment_rental_1" "contract_terms_1") +
      length (slot_entries bd "equipment_rental_2" "contract_terms_2"))%nat.
Proof.
  intros Hb. apply map_building_inv in Hb
    as (w & bid & ft & st & zip & pc & addr & cty & sq & _ & _ & _ & _ & _
        & _ & _ & _ & _ & _ & _ & _ & _ & _ & _ & svc & Hsvc & _ & _ & _ & _
        & _ & _ & _ & Heq & _).
  rewrite Hsvc. cbn [length map list_sum fold_right]. split; [reflexivity|].
  rewrite Heq, length_app. unfold slot_entries. lia.
Qed.

(** X12: of the three counts shown after a conversion, the Buildings
    processed are as many as the stored records, the services are as many
    as the Buildings, and the equipment items are as many as the truthy
    equipment slots of the records, at most two for each Building. *)
Theorem statistics_of_a_document now self d :
  convert_to_api_json now self = Ok (Some d) ->
  buildings_processed d = length (buildings_data self)
  /\ services_count d = buildings_processed d
  /\ equipment_count d =
     list_sum
       (map (fun bd =>
               (length (slot_entries bd "equipment_rental_1" "contract_terms_1") +
                length (slot_entries bd "equipment_rental_2" "contract_terms_2"))%nat)
          (buildings_data self))
  /\ (equipment_count d <= 2 * buildings_processed d)%nat.
Proof.
  intros Hd. apply convert_Some in Hd as [_ Hd].
  unfold buildings_processed, services_count, equipment_count.
  induction Hd as [|bd b rows bs Hb Hrest IH].
  - repeat split; cbn; lia.
  - destruct IH as (Hlen & Hsvc & Hequip & Hmax).
    destruct (building_counts _ _ _ Hb) as [H1 H2].
    pose proof (slot_entries_length bd "equipment_rental_1" "contract_terms_1").
    pose proof (slot_entries_length bd "equipment_rental_2" "contract_terms_2").
    cbn [length map flat_map].
    rewrite list_sum_app, !list_sum_cons, H1, H2, Hsvc, Hequip.
    rewrite Hequip in Hmax.
    repeat split; lia.
Qed.

Lemma statistics_of_a_document_witness :
  convert_to_api_json "20260101_000000" acme_loaded = Ok (Some acme_deal)
  /\ buildings_processed acme_deal = 2%nat
  /\ services_count acme_deal = 2%nat
  /\ equipment_count acme_deal = 3%nat.
Proof.
  split; [exact acme_converts|].
  destruct (statistics_of_a_document _ _ _ acme_converts) as (H1 & H2 & H3 & _).
  split; [rewrite H1; reflexivity|]. split; [rewrite H2, H1; reflexivity|].
  rewrite H3. vm_compute. reflexivity.
Defined.

(** ** The download name *)

Lemma replace_char_length old new s :
  String.length (replace_char old new s) = String.length s.
Proof. induction s as [|c s IH]; cbn; [reflexivity | rewrite IH; reflexivity]. Qed.

Lemma has_char_cons c d s :
  has_char c (String d s) = Ascii.eqb c d || has_char c s.
Proof. reflexivity. Qed.

Lemma replace_char_removes old new s :
  old <> new -> has_char old (replace_char old new s) = false.
Proof.
  intros Hne. induction s as [|c s IH]; [reflexivity|].
  cbn [replace_char]. rewrite has_char_cons, IH, orb_false_r.
  destruct (Ascii.eqb_spec c old) as [->|Hc].
  - apply Ascii.eqb_neq. exact Hne.
  - apply Ascii.eqb_neq. congruence.
Qed.

Lemma replace_char_adds_only_new c old new s :
  c <> new -> has_char c (replace_char old new s) = true -> has_char c s = true.
Proof.
  intros Hne. induction s as [|d s IH]; [discriminate|].
  cbn [replace_char]. rewrite !has_char_cons, !orb_true_iff.
  intros [H|H]; [|right; apply IH, H].
  destruct (Ascii.eqb d old); [|left; exact H].
  apply Ascii.eqb_eq in H. contradiction.
Qed.

Lemma replace_char_absent old new s :
  has_char old s = false -> replace_char old new s = s.
Proof.
  induction s as [|c s IH]; [reflexivity|].
  rewrite has_char_cons, orb_false_iff. intros [Hc Hs].
  cbn [replace_char]. rewrite (IH Hs), Ascii.eqb_sym, Hc. reflexivity.
Qed.

(** X13: when the customer is a text, the download name is that text with
    every blank and every slash turned into an underscore, followed by
    [_api_input.json]: same length, no blank and no slash left, no other
    character changed or added, and the text itself when it has neither;
    when the customer is not a text (a numeric customer cell), building the
    name raises. *)
Theorem download_name_is_safe self name :
  Py.get (customer_info self) "customer_name" (VStr "Unknown") = VStr name ->
  (exists safe,
     download_filename self = Some (safe +:+ "_api_input.json")
     /\ String.length safe = String.length name
     /\ has_char " " safe = false
     /\ has_char "/" safe = false
     /\ (forall c, c <> "_"%char -> has_char c safe = true -> has_char c name = true)
     /\ (has_char " " name = false -> has_char "/" name = false -> safe = name))
  /\ (forall other,
        Py.is_str (Py.get (customer_info other) "customer_name" (VStr "Unknown"))
        = false ->
        download_filename other = None).
Proof.
  intros Hname. split.
  - exists (replace_char "/" "_" (replace_char " " "_" name)).
    split; [unfold download_filename; rewrite Hname; reflexivity|].
    split; [rewrite !replace_char_length; reflexivity|]. split; [|split; [|split]].
    + destruct (has_char " " (replace_char "/" "_" (replace_char " " "_" name)))
        eqn:E; [|reflexivity].
      apply replace_char_adds_only_new in E; [|discriminate].
      rewrite replace_char_removes in E; [discriminate E | discriminate].
    + apply replace_char_removes. discriminate.
    + intros c Hc H. apply replace_char_adds_only_new in H; [|exact Hc].
      apply replace_char_adds_only_new in H; [exact H | exact Hc].
    + intros Hs Hl. rewrite (replace_char_absent " " "_" name Hs).
      apply replace_char_absent, Hl.
  - intros other Ho. unfold download_filename.
    destruct (Py.get (customer_info other) "customer_name" (VStr "Unknown"));
      try reflexivity. discriminate.
Qed.

Lemma download_name_is_safe_witness :
  Py.get (customer_info spaced_customer) "customer_name" (VStr "Unknown")
  = VStr "Acme Corp/East 2"
  /\ download_filename spaced_customer = Some "Acme_Corp_East_2_api_input.json"
  /\ exists safe,
       download_filename spaced_customer = Some (safe +:+ "_api_input.json")
       /\ has_char " " safe = false /\ has_char "/" safe = false.
Proof.
  split; [reflexivity|]. split; [reflexivity|].
  destruct (proj1 (download_name_is_safe spaced_customer "Acme Corp/East 2" eq_refl))
    as (safe & H1 & _ & H2 & H3 & _).
  exists safe. split; [exact H1|]. split; [exact H2 | exact H3].
Defined.

(** ** The postal code *)

Lemma digits2_pos_bounds p :
  2 ^ (Zpos (digits2_pos p) - 1) <= Zpos p < 2 ^ Zpos (digits2_pos p).
Proof.
  induction p as [p IH|p IH|]; cbn [digits2_pos].
  - rewrite Pos2Z.inj_succ.
    replace (Z.succ (Zpos (digits2_pos p)) - 1) with (Z.succ (Zpos (digits2_pos p) - 1)) by lia.
    rewrite !Z.pow_succ_r by lia. lia.
  - rewrite Pos2Z.inj_succ.
    replace (Z.succ (Zpos (digits2_pos p)) - 1) with (Z.succ (Zpos (digits2_pos p) - 1)) by lia.
    rewrite !Z.pow_succ_r by lia. lia.
  - cbn. lia.
Qed.

Lemma digits2_pos_le p : Zpos p < 2 ^ 53 -> Zpos (digits2_pos p) <= 53.
Proof.
  intros H. destruct (digits2_pos_bounds p) as [Hlo _].
  destruct (Z.le_gt_cases (Zpos (digits2_pos p)) 53) as [|Hgt]; [assumption|].
  exfalso. assert (2 ^ 53 <= 2 ^ (Zpos (digits2_pos p) - 1)) by (apply Z.pow_le_mono_r; lia).
  lia.
Qed.

Lemma iter_xO_digits p k :
  digits2_pos (Pos.iter xO p k) = (digits2_pos p + k)%positive.
Proof.
  induction k as [|k IH] using Pos.peano_ind.
  - cbn. lia.
  - rewrite Pos.iter_succ. cbn [digits2_pos]. rewrite IH. lia.
Qed.

Lemma iter_xO_value p k :
  Zpos (Pos.iter xO p k) = Zpos p * 2 ^ Zpos k.
Proof.
  induction k as [|k IH] using Pos.peano_ind.
  - cbn. lia.
  - rewrite Pos.iter_succ, Pos2Z.inj_xO, IH, Pos2Z.inj_succ, Z.pow_succ_r by lia. lia.
Qed.

Lemma of_Z_exact p :
  Zpos p < 2 ^ 53 ->
  exists m e, PyFloat.of_Z (Zpos p) = S754_finite false m e
              /\ PyFloat.trunc (S754_finite false m e) = Some (Zpos p).
Proof.
  intros Hp. pose proof (digits2_pos_le p Hp) as Hd.
  unfold PyFloat.of_Z, binary_normalize, binary_round.
  assert (Hf : fexp PyFloat.prec PyFloat.emax (Zpos (digits2_pos p) + 0) = Zpos (digits2_pos p) - 53).
  { unfold fexp, emin, PyFloat.prec, PyFloat.emax. lia. }
  rewrite Hf. unfold shl_align.
  destruct (Zpos (digits2_pos p) - 53 - 0) as [|k|k] eqn:Hk; try lia.
  - (* 53 digits *)
    assert (Hd53 : Zpos (digits2_pos p) = 53) by lia.
    unfold binary_round_aux, shr_fexp. cbn [Zdigits2 shr_record_of_loc].
    rewrite Hd53.
    change (fexp PyFloat.prec PyFloat.emax (53 + 0) - 0) with 0.
    cbn [shr shr_m loc_of_shr_record round_nearest_even Zdigits2 shr_record_of_loc].
    rewrite Hd53.
    change (fexp PyFloat.prec PyFloat.emax (53 + 0) - 0) with 0.
    cbn [shr shr_m]. 
    exists p, 0. split; [reflexivity|]. cbn. f_equal. lia.
  - (* fewer digits *)
    assert (Hdk : Zpos (digits2_pos p) + Zpos k = 53) by lia.
    unfold binary_round_aux, shr_fexp. cbn [Zdigits2 shr_record_of_loc].
    rewrite iter_xO_digits, Pos2Z.inj_add.
    assert (Hf2 : fexp PyFloat.prec PyFloat.emax (Zpos (digits2_pos p) + Zpos k + (Zpos (digits2_pos p) - 53)) - (Zpos (digits2_pos p) - 53) = 0).
    { unfold fexp, emin, PyFloat.prec, PyFloat.emax. lia. }
    rewrite Hf2.
    cbn [shr shr_m loc_of_shr_record round_nearest_even Zdigits2 shr_record_of_loc].
    rewrite iter_xO_digits, Pos2Z.inj_add, Hf2.
    cbn [shr shr_m].
    assert (Hle : (Zpos (digits2_pos p) - 53 <=? PyFloat.emax - PyFloat.prec) = true).
    { unfold PyFloat.emax, PyFloat.prec. lia. }
    rewrite Hle.
    exists (Pos.iter xO p k), (Zpos (digits2_pos p) - 53). split; [reflexivity|].
    unfold PyFloat.trunc.
    assert (Hneg : (0 <=? Zpos (digits2_pos p) - 53) = false) by lia.
    rewrite Hneg. f_equal.
    replace (- (Zpos (digits2_pos p) - 53)) with (Zpos k) by lia.
    rewrite iter_xO_value. apply Z.div_mul. 
    apply Z.pow_nonzero; lia.
Qed.

Lemma digit_char c :
  PyStr.is_digit c = true ->
  PyFloat.float_space c = false /\ PyStr.isspace c = false
  /\ Ascii.eqb c "_" = false /\ Ascii.eqb c "-" = false
  /\ Ascii.eqb c "+" = false /\ PyFloat.lower c = c
  /\ Ascii.eqb c "i" = false /\ Ascii.eqb c "n" = false
  /\ 0 <= PyStr.digit_val c <= 9.
Proof.
  destruct c as [[] [] [] [] [] [] [] []]; intros H; try discriminate H;
    repeat split; try reflexivity; cbv; discriminate.
Qed.

Lemma skip_space_digit c l :
  PyStr.is_digit c = true -> PyFloat.skip_space (c :: l) = c :: l.
Proof.
  intros H. cbn [PyFloat.skip_space]. destruct (digit_char c H) as (-> & _). reflexivity.
Qed.

Lemma trim_digits l :
  forallb PyStr.is_digit l = true -> PyFloat.trim l = l.
Proof.
  intros H. unfold PyFloat.trim. destruct l as [|c l]; [reflexivity|].
  cbn [forallb] in H. apply andb_true_iff in H as [Hc Hl].
  rewrite (skip_space_digit c l Hc).
  destruct (rev (c :: l)) as [|d t] eqn:E.
  - apply (f_equal (@rev ascii)) in E. rewrite rev_involutive in E. discriminate.
  - assert (Hd : PyStr.is_digit d = true).
    { assert (Hin : In d (c :: l)) by (apply in_rev; rewrite E; left; reflexivity).
      destruct Hin as [<-|Hin]; [exact Hc|].
      rewrite forallb_forall in Hl. apply Hl, Hin. }
    rewrite (skip_space_digit d t Hd), <- E. apply rev_involutive.
Qed.

Lemma drop_underscores_digits l : forall prev,
  Ascii.eqb prev "_" = false ->
  forallb PyStr.is_digit l = true ->
  PyStr.drop_underscores prev l = Some l.
Proof.
  induction l as [|c l IH]; intros prev Hp H; cbn [PyStr.drop_underscores].
  - rewrite Hp. reflexivity.
  - cbn [forallb] in H. apply andb_true_iff in H as [Hc Hl].
    destruct (digit_char c Hc) as (_ & _ & Hu & _).
    rewrite Hu, Hp. cbn [andb]. rewrite (IH c Hu Hl). reflexivity.
Qed.

Lemma span_digits_all l :
  forallb PyStr.is_digit l = true -> PyStr.span_digits l = (l, []).
Proof.
  induction l as [|c l IH]; intros H; cbn [PyStr.span_digits]; [reflexivity|].
  cbn [forallb] in H. apply andb_true_iff in H as [Hc Hl].
  rewrite Hc, (IH Hl). reflexivity.
Qed.

Lemma digits_fold_nonneg l : forall acc,
  0 <= acc ->
  forallb PyStr.is_digit l = true ->
  0 <= fold_left (fun a c => 10 * a + PyStr.digit_val c) l acc.
Proof.
  induction l as [|c l IH]; intros acc Ha H; cbn [fold_left]; [exact Ha|].
  cbn [forallb] in H. apply andb_true_iff in H as [Hc Hl].
  destruct (digit_char c Hc) as (_ & _ & _ & _ & _ & _ & _ & _ & Hv).
  apply IH; [lia | exact Hl].
Qed.

Lemma digits_val_nonneg l :
  forallb PyStr.is_digit l = true -> 0 <= PyStr.digits_val l.
Proof. apply digits_fold_nonneg. lia. Qed.

Lemma of_string_digits s :
  s <> EmptyString ->
  forallb PyStr.is_digit (list_ascii_of_string s) = true ->
  PyFloat.of_string s =
  Some (PyFloat.of_decimal false (PyStr.digits_val (list_ascii_of_string s)) 0).
Proof.
  intros Hne H. unfold PyFloat.of_string.
  rewrite (trim_digits _ H), (drop_underscores_digits _ "000"%char eq_refl H).
  destruct s as [|c s]; [contradiction|]. cbn [list_ascii_of_string] in *.
  cbn [forallb] in H. apply andb_true_iff in H as [Hc Hl].
  destruct (digit_char c Hc) as (_ & _ & _ & Hm & Hpl & Hlow & Hi & Hn & _).
  unfold PyStr.take_sign. rewrite Hm, Hpl.
  unfold PyFloat.parse_inf_nan. cbn [map string_of_list_ascii]. rewrite Hlow.
  cbn [String.eqb]. rewrite Hi, Hn. cbn [orb].
  unfold PyFloat.parse_number.
  rewrite (span_digits_all (c :: list_ascii_of_string s))
    by (cbn [forallb]; rewrite Hc, Hl; reflexivity).
  cbn [app length Z.of_nat Z.opp]. rewrite app_nil_r. reflexivity.
Qed.

Lemma building_postal_code ws r cn b :
  map_building cn (record_of ws r) = Ok b ->
  postal_code (stored_numeric (cell_value ws "G" r)) = Ok (postalCode (location b)).
Proof.
  intros Hb. apply map_building_inv in Hb
    as (w & bid & ft & st & zip & pc & addr & cty & sq & _ & _ & _ & _
        & Hzip & Hpc & _ & _ & _ & _ & _ & _ & _ & Hloc & _).
  rewrite (record_numeric ws r "zip" "G") in Hzip by in_fields.
  injection Hzip as <-. rewrite Hloc. exact Hpc.
Qed.

Lemma postal_code_digits s :
  s <> "" ->
  forallb PyStr.is_digit (list_ascii_of_string s) = true ->
  PyStr.digits_val (list_ascii_of_string s) < 2 ^ 53 ->
  match PyFloat.of_string s with
  | Some x =>
      postal_code (VFloat x) =
      Ok (if PyStr.digits_val (list_ascii_of_string s) =? 0 then ""
          else PyStr.of_Z (PyStr.digits_val (list_ascii_of_string s)))
  | None => False
  end.
Proof.
  intros Hne Hd Hlt. rewrite (of_string_digits s Hne Hd).
  pose proof (digits_val_nonneg _ Hd) as Hpos.
  destruct (PyStr.digits_val (list_ascii_of_string s)) as [|p|p]; [reflexivity| |lia].
  unfold PyFloat.of_decimal. rewrite Z.leb_refl, Z.pow_0_r, Z.mul_1_r.
  destruct (of_Z_exact p Hlt) as (m & e & Hof & Htr).
  change (binary_normalize PyFloat.prec PyFloat.emax (Zpos p) 0 false)
    with (PyFloat.of_Z (Zpos p)).
  rewrite Hof. unfold postal_code. cbn [Py.truthy PyFloat.is_zero negb Py.int].
  rewrite Htr. reflexivity.
Qed.

(** X15: the postal code of a Building built from a stored record, by
    what cell G holds. An integer gives its decimal text, and 0 the empty
    text. A text of decimal digits, blanks around it aside, whose number
    is below 2^53 gives the decimal text of that number, so that leading
    zeros are lost, and the empty text when the number is 0. An empty cell
    and a text that does not parse as a float, such as an alphanumeric
    code, give the empty text. *)
Theorem postal_code_from_cell ws r cn b :
  map_building cn (record_of ws r) = Ok b ->
  (forall z, cell_value ws "G" r = VInt z ->
     postalCode (location b) = if z =? 0 then "" else PyStr.of_Z z)
  /\ (forall s n,
        cell_value ws "G" r = VStr s ->
        PyStr.strip s <> "" ->
        forallb PyStr.is_digit (list_ascii_of_string (PyStr.strip s)) = true ->
        n = PyStr.digits_val (list_ascii_of_string (PyStr.strip s)) ->
        n < 2 ^ 53 ->
        postalCode (location b) = if n =? 0 then "" else PyStr.of_Z n)
  /\ (cell_value ws "G" r = VNone -> postalCode (location b) = "")
  /\ (forall s,
        cell_value ws "G" r = VStr s ->
        PyFloat.of_string (PyStr.strip s) = None ->
        postalCode (location b) = "").
Proof.
  intros Hb. apply building_postal_code in Hb.
  split; [|split; [|split]].
  - intros z Hz. rewrite Hz in Hb. cbn [stored_numeric] in Hb.
    unfold postal_code in Hb. cbn [Py.truthy Py.int] in Hb.
    destruct (z =? 0); cbn [negb mbind result_bind] in Hb; congruence.
  - intros s n Hs Hne Hd -> Hlt. rewrite Hs in Hb. cbn [stored_numeric] in Hb.
    pose proof (postal_code_digits _ Hne Hd Hlt) as Hp.
    destruct (PyFloat.of_string (PyStr.strip s)); [|contradiction]. congruence.
  - intros Hn. rewrite Hn in Hb. cbn in Hb. congruence.
  - intros s Hs Hp. rewrite Hs in Hb. cbn [stored_numeric] in Hb.
    rewrite Hp in Hb. cbn in Hb. congruence.
Qed.

Lemma postal_code_from_cell_witness :
  exists b,
    map_building (VStr "Acme") (record_of (sheet_of acme_cells) 5) = Ok b
    /\ cell_value (sheet_of acme_cells) "G" 5 = VStr " 02134 "
    /\ postalCode (location b) = "2134".
Proof.
  destruct (map_building (VStr "Acme") (record_of (sheet_of acme_cells) 5))
    as [b|e] eqn:E; [|vm_compute in E; discriminate].
  exists b. split; [reflexivity|]. split; [reflexivity|].
  destruct (postal_code_from_cell _ _ _ _ E) as (_ & H & _).
  assert (H1 : PyStr.strip " 02134 " <> "") by (vm_compute; discriminate).
  assert (H2 : forallb PyStr.is_digit (list_ascii_of_string (PyStr.strip " 02134 "))
               = true) by (vm_compute; reflexivity).
  assert (H3 : 2134 = PyStr.digits_val (list_ascii_of_string (PyStr.strip " 02134 ")))
    by (vm_compute; reflexivity).
  assert (H4 : 2134 < 2 ^ 53) by (vm_compute; reflexivity).
  exact (H " 02134 " 2134 eq_refl H1 H2 H3 H4).
Defined.
